(** * PN532 USB serial reader: a shallow embedding of [pn532_scan.py]

    The script talks to a PN532 contactless reader over a serial port.
    It has four pieces: the card-type table [get_card_type], the UID
    poll [read_rfid_uid], the port scan [find_pn532_port] and the
    entry point [main].  The serial port, the port enumeration and the
    clock are outside the script; they are kept abstract here (class
    [Host]) and every call the script makes on them is logged, in
    order, together with every line it prints. *)

From Stdlib Require Import ZArith List String Ascii Strings.Byte Lia Bool.
From Stdlib Require Import DecimalString.
Import ListNotations.

Local Open Scope string_scope.
Local Open Scope Z_scope.

Set Implicit Arguments.

(** ** Python values used by the script *)

(** A [bytes] object is a sequence of integers in [0, 256). *)
Definition bytes := list byte.

Definition byte_to_Z (b : byte) : Z := Z.of_N (Byte.to_N b).

(** [len(x)] as a Python integer. *)
Definition len {A} (l : list A) : Z := Z.of_nat (List.length l).

(** An index of a slice, brought into [0, n] the way Python does it:
    a negative index counts from the end, and both ends saturate. *)
Definition slice_bound (n i : Z) : Z :=
  if i <? 0 then Z.max 0 (i + n) else Z.min i n.

(** [l[a:b]] (step 1).  It never raises. *)
Definition py_slice {A} (l : list A) (a b : Z) : list A :=
  let lo := slice_bound (len l) a in
  let hi := slice_bound (len l) b in
  firstn (Z.to_nat (hi - lo)) (skipn (Z.to_nat lo) l).

(** The line feed that the script writes as a backslash-n escape. *)
Definition LF : string := String (ascii_of_nat 10) EmptyString.

(** *** Number formatting *)

(** Digits of the [X] presentation type: upper-case hexadecimal. *)
Fixpoint hex_upper (d : Hexadecimal.uint) : string :=
  match d with
  | Hexadecimal.Nil => ""
  | Hexadecimal.D0 r => String "0" (hex_upper r)
  | Hexadecimal.D1 r => String "1" (hex_upper r)
  | Hexadecimal.D2 r => String "2" (hex_upper r)
  | Hexadecimal.D3 r => String "3" (hex_upper r)
  | Hexadecimal.D4 r => String "4" (hex_upper r)
  | Hexadecimal.D5 r => String "5" (hex_upper r)
  | Hexadecimal.D6 r => String "6" (hex_upper r)
  | Hexadecimal.D7 r => String "7" (hex_upper r)
  | Hexadecimal.D8 r => String "8" (hex_upper r)
  | Hexadecimal.D9 r => String "9" (hex_upper r)
  | Hexadecimal.Da r => String "A" (hex_upper r)
  | Hexadecimal.Db r => String "B" (hex_upper r)
  | Hexadecimal.Dc r => String "C" (hex_upper r)
  | Hexadecimal.Dd r => String "D" (hex_upper r)
  | Hexadecimal.De r => String "E" (hex_upper r)
  | Hexadecimal.Df r => String "F" (hex_upper r)
  end.

(** The format spec [02X]: upper-case hexadecimal, zero-filled to a
    total width of two; the sign of a negative number counts in the
    width, so a negative number is never padded. *)
Definition format_02X (n : Z) : string :=
  match Z.to_hex_int n with
  | Hexadecimal.Pos d =>
      let s := hex_upper d in
      if (String.length s <? 2)%nat then "0" ++ s else s
  | Hexadecimal.Neg d => "-" ++ hex_upper d
  end.

(** [str(n)] for an integer, also what an empty format spec gives. *)
Definition str_int (n : Z) : string :=
  NilZero.string_of_int (Z.to_int n).

(** [sep.join(parts)]. *)
Fixpoint join (sep : string) (parts : list string) : string :=
  match parts with
  | [] => ""
  | [p] => p
  | p :: rest => p ++ sep ++ join sep rest
  end.

(** [needle in hay] for strings. *)
Fixpoint contains (needle hay : string) : bool :=
  prefix needle hay ||
  match hay with
  | EmptyString => false
  | String _ rest => contains needle rest
  end.

(** Line 28: the bytes of a UID as two-digit hexadecimal numbers
    separated by spaces. *)
Definition uid_hex (uid_bytes : bytes) : string :=
  join " " (map (fun b => format_02X (byte_to_Z b)) uid_bytes).

(** ** Protocol constants *)

(** PN532 InListPassiveTarget command (ISO14443A, 1 target). *)
Definition READ_UID_COMMAND : bytes :=
  [x00; x00; xff;
   x04; xfc;
   xd4; x4a; x01; x00;
   xe1;
   x00].

(** PN532 wake up command (a local of [find_pn532_port]). *)
Definition wake_cmd : bytes := [x55; x55; x00; x00; x00].

(** GetFirmwareVersion command (a local of [find_pn532_port]). *)
Definition firmware_cmd : bytes :=
  [x00; x00; xff;
   x02; xfe;
   xd4; x02;
   x2a; x00].

(** ** Card identification *)

(** The last line of [get_card_type]. *)
Definition unknown_label (sak uid_length : Z) : string :=
  "Unknown (SAK: 0x" ++ format_02X sak ++ ", UID Length: "
    ++ str_int uid_length ++ ")".

(** Identify card type based on SAK value and UID length.  The
    MIFARE Classic branch has no [else]: a length other than 4 and 7
    leaves the [if] chain and reaches the last [return]. *)
Definition get_card_type (sak uid_length : Z) : string :=
  if Z.land sak 0x08 =? 0x08 then
    if uid_length =? 4 then "MIFARE Classic 1K"
    else if uid_length =? 7 then "MIFARE Classic 4K"
    else unknown_label sak uid_length
  else if Z.land sak 0x20 =? 0x20 then "MIFARE DESFire or SmartMX"
  else if sak =? 0x00 then "MIFARE Ultralight/NTAG"
  else if sak =? 0x20 then "MIFARE Plus"
  else unknown_label sak uid_length.

(** ** Exceptions and the outside world *)

(** The exceptions that can travel through the script.  The first two
    are instances of [Exception]; the last two derive from
    [BaseException] only, so an [except Exception] clause lets them
    pass. *)
Inductive exn : Type :=
| IndexError
| SerialException (msg : string)
| KeyboardInterrupt
| SystemExit (code : Z).

Definition is_Exception (e : exn) : bool :=
  match e with
  | IndexError | SerialException _ => true
  | KeyboardInterrupt | SystemExit _ => false
  end.

Definition is_KeyboardInterrupt (e : exn) : bool :=
  match e with
  | KeyboardInterrupt => true
  | _ => false
  end.

(** [str(e)], as interpolated into the error lines. *)
Definition exn_str (e : exn) : string :=
  match e with
  | IndexError => "index out of range"
  | SerialException msg => msg
  | KeyboardInterrupt => ""
  | SystemExit code => str_int code
  end.

(** What a call into the outside world does: it returns or throws. *)
Inductive reply (A : Type) : Type :=
| Returns (a : A)
| Throws (e : exn).

Arguments Returns {A} a.
Arguments Throws {A} e.

(** An entry of [serial.tools.list_ports.comports()]. *)
Record port_info : Type := { device : string; description : string }.

(** The collaborators of the script: pyserial and [time.sleep], over a
    world [W] and serial objects [Ser].  Durations are in
    milliseconds. *)
Class Host (W Ser : Type) : Type := {
  comports : W -> reply (list port_info) * W;
  Serial : string -> Z -> Z -> W -> reply Ser * W;
  reset_input_buffer : Ser -> W -> reply unit * W;
  write : Ser -> bytes -> W -> reply unit * W;
  read : Ser -> Z -> W -> reply bytes * W;
  close : Ser -> W -> reply unit * W;
  sleep : Z -> W -> reply unit * W
}.

(** What the script does, in order.  A call is logged when it is made,
    whether it returns or throws; [EvOpen] also keeps the serial
    object the constructor returned, if it returned one. *)
Inductive event (Ser : Type) : Type :=
| EvPrint (line : string)
| EvComports
| EvOpen (port : string) (ser : option Ser)
| EvReset (ser : Ser)
| EvWrite (ser : Ser) (data : bytes)
| EvRead (ser : Ser) (size : Z)
| EvClose (ser : Ser)
| EvSleep (ms : Z).

Arguments EvPrint {Ser} line.
Arguments EvComports {Ser}.
Arguments EvOpen {Ser} port ser.
Arguments EvSleep {Ser} ms.

(** How a piece of the script ends.  [OutOfFuel] is not a Python
    outcome: it marks a run of the [while True] loop of [main] that
    was cut after the given number of rounds and is still going. *)
Inductive res (A : Type) : Type :=
| Ok (a : A)
| Raise (e : exn)
| OutOfFuel.

Arguments Ok {A} a.
Arguments Raise {A} e.
Arguments OutOfFuel {A}.

Definition res_of_reply {A} (r : reply A) : res A :=
  match r with
  | Returns a => Ok a
  | Throws e => Raise e
  end.

(** ** The script *)

Section Script.

Context {W Ser : Type} {host : Host W Ser}.

(** A computation runs in a world and yields an outcome, the next
    world and the events it produced. *)
Definition M (A : Type) : Type := W -> res A * W * list (event Ser).

Definition ret {A} (a : A) : M A := fun w => (Ok a, w, []).

Definition bind {A B} (m : M A) (f : A -> M B) : M B :=
  fun w =>
    match m w with
    | (Ok a, w1, t1) =>
        match f a w1 with
        | (r, w2, t2) => (r, w2, (t1 ++ t2)%list)
        end
    | (Raise e, w1, t1) => (Raise e, w1, t1)
    | (OutOfFuel, w1, t1) => (OutOfFuel, w1, t1)
    end.

Definition raise {A} (e : exn) : M A := fun w => (Raise e, w, []).

Definition out_of_fuel {A} : M A := fun w => (OutOfFuel, w, []).

(** [try: body / except <class> as e: handler e]. *)
Definition try_except {A} (catches : exn -> bool)
    (body : M A) (handler : exn -> M A) : M A :=
  fun w =>
    match body w with
    | (Raise e, w1, t1) =>
        if catches e then
          match handler e w1 with
          | (r, w2, t2) => (r, w2, (t1 ++ t2)%list)
          end
        else (Raise e, w1, t1)
    | out => out
    end.

(** [try: body / finally: cleanup].  The cleanup runs however the body
    ended; an exception of the cleanup replaces the body's outcome. *)
Definition try_finally {A} (body : M A) (cleanup : M unit) : M A :=
  fun w =>
    match body w with
    | (OutOfFuel, w1, t1) => (OutOfFuel, w1, t1)
    | (r, w1, t1) =>
        match cleanup w1 with
        | (Ok _, w2, t2) => (r, w2, (t1 ++ t2)%list)
        | (Raise e, w2, t2) => (Raise e, w2, (t1 ++ t2)%list)
        | (OutOfFuel, w2, t2) => (OutOfFuel, w2, (t1 ++ t2)%list)
        end
    end.

Definition call {A} (ev : event Ser) (op : W -> reply A * W) : M A :=
  fun w => match op w with (r, w1) => (res_of_reply r, w1, [ev]) end.

Definition call_open (port : string) (baudrate timeout : Z) : M Ser :=
  fun w =>
    match Serial port baudrate timeout w with
    | (Returns ser, w1) => (Ok ser, w1, [EvOpen port (Some ser)])
    | (Throws e, w1) => (Raise e, w1, [EvOpen port None])
    end.

Definition print (line : string) : M unit :=
  fun w => (Ok tt, w, [EvPrint line]).

End Script.

Declare Scope script_scope.
Delimit Scope script_scope with script.
Notation "x <- m ;; k" := (bind m (fun x => k))
  (at level 100, m at next level, right associativity) : script_scope.
Notation "m ;; k" := (bind m (fun _ => k))
  (at level 100, right associativity) : script_scope.
Local Open Scope script_scope.

Section Program.

Context {W Ser : Type} {host : Host W Ser}.

Local Abbreviation script := (@M W Ser).

(** [l[i]] for a sequence: a negative index counts from the end, and
    an index outside the sequence raises [IndexError]. *)
Definition py_getitem {A} (l : list A) (i : Z) : script A :=
  let j := if i <? 0 then i + len l else i in
  if j <? 0 then raise IndexError
  else
    match nth_error l (Z.to_nat j) with
    | Some x => ret x
    | None => raise IndexError
    end.

(** Indexing a [bytes] object gives an integer. *)
Definition bytes_getitem (b : bytes) (i : Z) : script Z :=
  x <- py_getitem b i ;; ret (byte_to_Z x).

(** [if uid:] on a value that is [None] or a string. *)
Definition truthy (uid : option string) : bool :=
  match uid with
  | None => false
  | Some s => negb (String.eqb s "")
  end.

(** *** [read_rfid_uid] *)

(** Lines 22-36: what [read_rfid_uid] does with the bytes it read. *)
Definition parse_target_response (response : bytes)
    : script (option string) :=
  if len response <? 20 then ret None
  else
    (* Parse response and extract UID *)
    uid_len <- bytes_getitem response 12 ;;
    let uid_bytes := py_slice response 13 (13 + uid_len) in
    let uid_str := uid_hex uid_bytes in
    (* Print card type info based on SAK and UID length *)
    (if len response >=? 12 then
       sak <- bytes_getitem response 11 ;;
       let card_type := get_card_type sak uid_len in
       print ("Card type: " ++ card_type)
     else ret tt) ;;
    ret (Some uid_str).

(** Lines 17-20: send the command and read what comes back. *)
Definition request_target (ser : Ser) : script bytes :=
  call (EvReset ser) (reset_input_buffer ser) ;;
  call (EvWrite ser READ_UID_COMMAND) (write ser READ_UID_COMMAND) ;;
  call (EvSleep 300) (sleep 300) ;;
  call (EvRead ser 64) (read ser 64).

Definition read_rfid_uid (ser : Ser) : script (option string) :=
  try_except is_Exception
    (response <- request_target ser ;;
     parse_target_response response)
    (fun e =>
       print ("Error reading UID: " ++ exn_str e) ;;
       ret None).

(** *** [find_pn532_port] *)

(** Line 105: the test that the response looks like a PN532 response.
    [and] evaluates its right operand only when the left one holds. *)
Definition firmware_check (response : bytes) : script bool :=
  if len response >=? 10 then
    b5 <- bytes_getitem response 5 ;;
    if b5 =? 0xD5 then
      b6 <- bytes_getitem response 6 ;;
      ret (b6 =? 0x03)
    else ret false
  else ret false.

(** Lines 107-109: the three locals read from the response. *)
Record firmware : Type :=
  { ic_version : Z; fw_version : Z; fw_revision : Z }.

Definition firmware_versions (response : bytes) : script firmware :=
  ic <- bytes_getitem response 7 ;;
  fw <- bytes_getitem response 8 ;;
  rev <- bytes_getitem response 9 ;;
  ret {| ic_version := ic; fw_version := fw; fw_revision := rev |}.

(** Lines 72-73: the numbered list of the ports found. *)
Fixpoint print_ports (i : Z) (ports : list port_info) : script unit :=
  match ports with
  | [] => ret tt
  | port_info :: rest =>
      print (str_int (i + 1) ++ ". " ++ device port_info ++ " - "
               ++ description port_info) ;;
      print_ports (i + 1) rest
  end.

(** Lines 85-102: wake the reader, ask for its firmware version and
    read the response. *)
Definition probe_request (ser : Ser) : script bytes :=
  (* Send wake command and see if we get a response *)
  call (EvReset ser) (reset_input_buffer ser) ;;
  call (EvWrite ser wake_cmd) (write ser wake_cmd) ;;
  call (EvSleep 100) (sleep 100) ;;
  (* Send GetFirmwareVersion command *)
  call (EvWrite ser firmware_cmd) (write ser firmware_cmd) ;;
  call (EvSleep 100) (sleep 100) ;;
  (* Read response *)
  call (EvRead ser 20) (read ser 20).

(** Lines 77-117: one round of the scan.  [Some ser] is the
    [return ser] of line 111; [None] lets the [for] loop go on. *)
Definition try_port (port_info : port_info) : script (option Ser) :=
  let port := device port_info in
  print (LF ++ "Trying " ++ port ++ " (" ++ description port_info
           ++ ")...") ;;
  try_except is_Exception
    ((* Try to open the port *)
     ser <- call_open port 115200 1 ;;
     response <- probe_request ser ;;
     (* Check if response looks like a PN532 response *)
     recognized <- firmware_check response ;;
     if recognized then
       print ("PN532 found on " ++ port ++ "!") ;;
       v <- firmware_versions response ;;
       print ("Firmware version: " ++ str_int (fw_version v) ++ "."
                ++ str_int (fw_revision v)) ;;
       ret (Some ser)
     else
       call (EvClose ser) (close ser) ;;
       print ("No PN532 response on " ++ port) ;;
       ret None)
    (fun e =>
       print ("Error on " ++ port ++ ": " ++ exn_str e) ;;
       ret None).

(** Lines 76-117: the [for] loop, left at the first [return ser]. *)
Fixpoint scan_ports (ports : list port_info) : script (option Ser) :=
  match ports with
  | [] => ret None
  | port_info :: rest =>
      found <- try_port port_info ;;
      match found with
      | Some ser => ret (Some ser)
      | None => scan_ports rest
      end
  end.

(** Scan for available serial ports and try to find a PN532 device.
    Returns the first port that responds to PN532 commands or None if
    no suitable port is found. *)
Definition find_pn532_port : script (option Ser) :=
  print "Scanning for available serial ports..." ;;
  available_ports <- call EvComports comports ;;
  match available_ports with
  | [] =>
      print "No serial ports found." ;;
      ret None
  | _ =>
      print ("Found " ++ str_int (len available_ports) ++ " ports:") ;;
      print_ports 0 available_ports ;;
      found <- scan_ports available_ports ;;
      match found with
      | Some ser => ret (Some ser)
      | None =>
          print "No PN532 device found on any port." ;;
          ret None
      end
  end.

(** *** [main] *)

(** Lines 149-155: the [while True] loop, cut after [fuel] rounds. *)
Fixpoint poll_loop (fuel : nat) (ser : Ser) : script unit :=
  match fuel with
  | O => out_of_fuel
  | S fuel' =>
      uid <- read_rfid_uid ser ;;
      if truthy uid then
        print ("Card detected! UID: "
                 ++ match uid with Some s => s | None => "None" end) ;;
        print "Successfully read card. Exiting." ;;
        ret tt
      else
        call (EvSleep 500) (sleep 500) ;;
        poll_loop fuel' ser
  end.

(** Lines 147-159: the loop under its [try]/[except]/[finally]. *)
Definition poll (fuel : nat) (ser : Ser) : script unit :=
  try_finally
    (try_except is_KeyboardInterrupt
       (print "Scanning for a card... (will exit after successful read)" ;;
        poll_loop fuel ser)
       (fun _ => print (LF ++ "Exiting.")))
    (call (EvClose ser) (close ser)).

(** [main], given [sys.argv]. *)
Definition main (argv : list string) (fuel : nat) : script unit :=
  (* Check if port is provided as command line argument *)
  given <-
    (if len argv >=? 2 then
       port <- py_getitem argv 1 ;;
       try_except is_Exception
         (print ("Trying to connect to specified port " ++ port ++ "...") ;;
          ser <- call_open port 115200 1 ;;
          print ("Connected to " ++ port ++ ".") ;;
          ret (Some ser))
         (fun e =>
            print ("Error opening serial port " ++ port ++ ": "
                     ++ exn_str e) ;;
            print "Will try to auto-detect PN532 device..." ;;
            ret None)
     else ret None) ;;
  (* If no port specified or connection failed, try to auto-detect *)
  ser <-
    match given with
    | Some ser => ret ser
    | None =>
        found <- find_pn532_port ;;
        match found with
        | Some ser => ret ser
        | None =>
            print (LF ++ "Could not find PN532 device. "
                     ++ "Please check connections and try again.") ;;
            print ("You can also specify the port directly: "
                     ++ "python pn532_scan.py COM5") ;;
            raise (SystemExit 1)
        end
    end ;;
  print ("Connected to PN532. Waiting for RFID tags..." ++ LF
           ++ "Press Ctrl+C to exit." ++ LF) ;;
  poll fuel ser.

End Program.

(** ** A scripted host

    A concrete outside world for running the script: every call takes
    the next step of a scenario, which lets it go through, makes it
    throw, or (for [read]) supplies the bytes received.  Once the
    scenario is used up every call goes through and [read] returns
    the bytes in [idle]. *)
Module Sim.

Inductive step : Type :=
| Pass
| Fail (e : exn)
| Data (d : bytes).

Record world : Type := {
  ports : list port_info;
  idle : bytes;
  scenario : list step;
  next_ser : nat
}.

Definition pop (w : world) : step * world :=
  match scenario w with
  | [] => (Pass, w)
  | s :: rest =>
      (s, {| ports := ports w; idle := idle w; scenario := rest;
             next_ser := next_ser w |})
  end.

Definition plain {A} (a : A) (w : world) : reply A * world :=
  match pop w with
  | (Fail e, w1) => (Throws e, w1)
  | (_, w1) => (Returns a, w1)
  end.

Definition sim_open (w : world) : reply nat * world :=
  match pop w with
  | (Fail e, w1) => (Throws e, w1)
  | (_, w1) =>
      (Returns (next_ser w1),
       {| ports := ports w1; idle := idle w1; scenario := scenario w1;
          next_ser := S (next_ser w1) |})
  end.

Definition sim_read (w : world) : reply bytes * world :=
  match pop w with
  | (Fail e, w1) => (Throws e, w1)
  | (Data d, w1) => (Returns d, w1)
  | (Pass, w1) => (Returns (idle w1), w1)
  end.

#[export] Instance host : Host world nat := {
  comports w := plain (ports w) w;
  Serial _ _ _ := sim_open;
  reset_input_buffer _ := plain tt;
  write _ _ := plain tt;
  read _ _ := sim_read;
  close _ := plain tt;
  sleep _ := plain tt
}.

(** A world with the given ports in which nothing has happened yet. *)
Definition start (ps : list port_info) (quiet : bytes)
    (steps : list step) : world :=
  {| ports := ps; idle := quiet; scenario := steps; next_ser := 0 |}.

Definition COM (n : Z) : port_info :=
  {| device := "COM" ++ str_int n; description := "USB Serial Port" |}.

(** *** Frames used in the examples *)

(** A target response of 25 bytes: SAK 0x08 at offset 11, UID length
    4 at offset 12, UID DE AD BE EF at offsets 13-16. *)
Definition card_frame : bytes :=
  [x00; x00; xff; x0c; xf4; xd5; x4b; x01; x01; x00; x04;
   x08; x04; xde; xad; xbe; xef;
   x00; x00; x00; x00; x00; x00; x00; x00].

(** A target response of 20 bytes whose UID fills it to the end: SAK
    0x00, UID length 7, UID 01 .. 07 at offsets 13-19. *)
Definition exact_frame : bytes :=
  [x00; x00; xff; x0f; xf1; xd5; x4b; x01; x01; x00; x44;
   x00; x07; x01; x02; x03; x04; x05; x06; x07].

(** The same 20 bytes with a UID length of 8: one more than there are
    bytes after offset 13. *)
Definition overrun_frame : bytes :=
  [x00; x00; xff; x0f; xf1; xd5; x4b; x01; x01; x00; x44;
   x00; x08; x01; x02; x03; x04; x05; x06; x07].

(** A target response of 20 bytes with a UID length of 0. *)
Definition empty_uid_frame : bytes :=
  [x00; x00; xff; x0f; xf1; xd5; x4b; x01; x01; x00; x04;
   x08; x00; x00; x00; x00; x00; x00; x00; x00].

(** A response of 19 bytes. *)
Definition short_frame : bytes :=
  [x00; x00; xff; x0f; xf1; xd5; x4b; x01; x01; x00; x04;
   x08; x04; xde; xad; xbe; xef; x00; x00].

(** The GetFirmwareVersion response 00 00 FF 02 FE D5 03 32 01 06. *)
Definition firmware_frame : bytes :=
  [x00; x00; xff; x02; xfe; xd5; x03; x32; x01; x06].

(** A world without ports in which every call goes through and every
    read times out. *)
Definition quiet : world := start [] [] [].

(** Two ports; on the first one the port opens and the write of the
    wake command throws; the second one answers nothing. *)
Definition leak_world : world :=
  start [COM 1; COM 2] []
    [Pass; Pass; Pass; Fail (SerialException "write timeout")].

(** Two ports on which every read times out with 0 bytes. *)
Definition silent_world : world := start [COM 1; COM 2] [] [].

(** One port, whose reader answers the firmware query. *)
Definition reader_world : world := start [COM 1] firmware_frame [].

(** A confirmed device on which the first write of the poll throws and
    a card is present from then on. *)
Definition flaky_world : world :=
  start [] card_frame [Pass; Fail (SerialException "write timeout")].

(** A confirmed device that answers every poll with a UID of length 0. *)
Definition empty_uid_world : world := start [] empty_uid_frame [].

(** A confirmed device with a card on it. *)
Definition card_world : world := start [] card_frame [].

(** Three ports: the first one answers nothing, the second one
    answers the firmware query. *)
Definition second_port_world : world :=
  start [COM 1; COM 2; COM 3] firmware_frame
    [Pass; Pass; Pass; Pass; Pass; Pass; Pass; Data []].

(** The state of [second_port_world] after the enumeration. *)
Definition second_port_listed : world :=
  start [COM 1; COM 2; COM 3] firmware_frame
    [Pass; Pass; Pass; Pass; Pass; Pass; Data []].

(** A confirmed device without a card; Ctrl+C arrives during the
    sleep that follows the first round. *)
Definition interrupted_world : world :=
  start [] [] [Pass; Pass; Pass; Pass; Fail KeyboardInterrupt].

(** A host on which the first port opened cannot be opened, and
    which has no port to enumerate. *)
Definition unopenable_world : world :=
  start [] [] [Fail (SerialException "could not open port")].

(** [card_world] once its first port has been opened. *)
Definition card_opened : world :=
  {| ports := []; idle := card_frame; scenario := []; next_ser := 1 |}.

(** Is the event a [close] of the given serial object? *)
Definition is_close (ser : nat) (ev : event nat) : bool :=
  match ev with
  | EvClose s => Nat.eqb s ser
  | _ => false
  end.

End Sim.

(** ** Vocabulary of the statements *)

(** A response that passes the test of line 105, read off its bytes:
    at least 10 of them, D5 at offset 5 and 03 at offset 6. *)
Definition looks_like_pn532 (raw : bytes) : Prop :=
  (10 <= List.length raw)%nat /\
  nth_error raw 5 = Some xd5 /\ nth_error raw 6 = Some x03.

(** Line 78: the first line of a round of the scan. *)
Definition trying_line (p : port_info) : string :=
  LF ++ "Trying " ++ device p ++ " (" ++ description p ++ ")...".

(** The ports of the [serial.Serial] calls of a run, in order. *)
Fixpoint opened_ports {Ser} (t : list (event Ser)) : list string :=
  match t with
  | [] => []
  | EvOpen port _ :: rest => port :: opened_ports rest
  | _ :: rest => opened_ports rest
  end.

(** The number of [close] calls of a run. *)
Fixpoint close_count {Ser} (t : list (event Ser)) : nat :=
  match t with
  | [] => 0
  | EvClose _ :: rest => S (close_count rest)
  | _ :: rest => close_count rest
  end.

(** Lines 17-20: the calls of a poll request on a port, in order. *)
Definition request_calls {Ser} (ser : Ser) : list (event Ser) :=
  [EvReset ser; EvWrite ser READ_UID_COMMAND; EvSleep 300; EvRead ser 64].

(** Lines 85-102: the calls of a probe on a port, in order. *)
Definition probe_calls {Ser} (ser : Ser) : list (event Ser) :=
  [EvReset ser; EvWrite ser wake_cmd; EvSleep 100;
   EvWrite ser firmware_cmd; EvSleep 100; EvRead ser 20].

(** * Properties *)

(** ** Sequences and slices *)

Section Sequences.

Context {A : Type}.

Lemma nth_error_in_range (l : list A) (i : nat) :
  (i < List.length l)%nat -> exists x, nth_error l i = Some x.
Proof.
  intros Hlt. destruct (nth_error l i) as [x|] eqn:E.
  - now exists x.
  - apply nth_error_None in E. lia.
Qed.

Lemma firstn_past_end (l : list A) (n : nat) :
  firstn (Nat.min n (List.length l)) l = firstn n l.
Proof.
  destruct (Nat.le_ge_cases n (List.length l)) as [Hle|Hge].
  - now rewrite Nat.min_l.
  - rewrite Nat.min_r by assumption.
    now rewrite firstn_all, firstn_all2.
Qed.

(** A slice that starts inside the sequence: the elements from the
    start on, cut after [n] of them or at the end of the sequence,
    whichever comes first. *)
Lemma py_slice_from (l : list A) (a n : Z) :
  0 <= a <= len l -> 0 <= n ->
  py_slice l a (a + n) = firstn (Z.to_nat n) (skipn (Z.to_nat a) l).
Proof.
  intros Ha Hn. unfold py_slice, slice_bound, len in *.
  destruct (Z.ltb_spec a 0) as [?|_]; [lia|].
  destruct (Z.ltb_spec (a + n) 0) as [?|_]; [lia|].
  rewrite (Z.min_l a) by lia.
  rewrite <- (firstn_past_end (skipn (Z.to_nat a) l) (Z.to_nat n)).
  f_equal. rewrite length_skipn. lia.
Qed.

Lemma py_slice_from_length (l : list A) (a n : Z) :
  0 <= a <= len l -> 0 <= n ->
  len (py_slice l a (a + n)) = Z.min n (len l - a).
Proof.
  intros Ha Hn. rewrite py_slice_from by assumption.
  unfold len in *. rewrite length_firstn, length_skipn. lia.
Qed.

(** Element [i] of such a slice is element [a + i] of the sequence. *)
Lemma nth_error_firstn_skipn (l : list A) (a n i : nat) :
  (i < n)%nat ->
  nth_error (firstn n (skipn a l)) i = nth_error l (a + i).
Proof.
  intros Hi. rewrite nth_error_firstn.
  destruct (Nat.ltb_spec i n) as [_|?]; [|lia].
  apply nth_error_skipn.
Qed.

End Sequences.

Lemma byte_to_Z_range (b : byte) : 0 <= byte_to_Z b < 256.
Proof.
  unfold byte_to_Z. pose proof (Byte.to_N_bounded b). lia.
Qed.

Lemma byte_to_Z_inj (a b : byte) : byte_to_Z a = byte_to_Z b -> a = b.
Proof.
  unfold byte_to_Z. intros H. apply N2Z.inj in H.
  pose proof (Byte.of_to_N a) as Ea. rewrite H, Byte.of_to_N in Ea.
  congruence.
Qed.

(** ** The card-type table *)

Lemma unknown_label_not_plus (sak uid_length : Z) :
  String.eqb (unknown_label sak uid_length) "MIFARE Plus" = false.
Proof. reflexivity. Qed.

(** The branch that tests [sak == 0x20] comes after the branch that
    tests the bit 0x20, so it is never taken. *)
Lemma get_card_type_never_plus (sak uid_length : Z) :
  String.eqb (get_card_type sak uid_length) "MIFARE Plus" = false.
Proof.
  unfold get_card_type.
  destruct (Z.land sak 8 =? 8).
  - destruct (uid_length =? 4); [reflexivity|].
    destruct (uid_length =? 7); [reflexivity|].
    apply unknown_label_not_plus.
  - destruct (Z.land sak 32 =? 32) eqn:E32; [reflexivity|].
    destruct (sak =? 0); [reflexivity|].
    destruct (Z.eqb_spec sak 32) as [->|_].
    + discriminate E32.
    + apply unknown_label_not_plus.
Qed.

Lemma get_card_type_classic_other (sak uid_length : Z) :
  Z.land sak 0x08 = 0x08 -> uid_length <> 4 -> uid_length <> 7 ->
  get_card_type sak uid_length = unknown_label sak uid_length.
Proof.
  intros Hbit H4 H7. unfold get_card_type.
  rewrite Hbit. cbn [Z.eqb Pos.eqb].
  destruct (Z.eqb_spec uid_length 4); [contradiction|].
  destruct (Z.eqb_spec uid_length 7); [contradiction|].
  reflexivity.
Qed.

Lemma get_card_type_labels (sak uid_length : Z) :
  In (get_card_type sak uid_length)
     ["MIFARE Classic 1K"; "MIFARE Classic 4K";
      "MIFARE DESFire or SmartMX"; "MIFARE Ultralight/NTAG";
      unknown_label sak uid_length].
Proof.
  pose proof (get_card_type_never_plus sak uid_length) as Hplus.
  unfold get_card_type in *.
  destruct (Z.land sak 8 =? 8).
  - destruct (uid_length =? 4); [now left|].
    destruct (uid_length =? 7); [right; now left|].
    do 4 right; now left.
  - destruct (Z.land sak 32 =? 32); [do 2 right; now left|].
    destruct (sak =? 0); [do 3 right; now left|].
    destruct (sak =? 32); [discriminate Hplus|].
    do 4 right; now left.
Qed.

(** C4.  [get_card_type] is defined on every pair of integers and its
    values are: Classic 1K at (0x08, 4); Classic 4K at (0x08, 7);
    DESFire or SmartMX at SAK 0x20 with any length; Ultralight/NTAG at
    SAK 0x00 with any length; never "MIFARE Plus"; at (0x99, 3) the
    fallback line, which contains "0x99" and "3"; the fallback line
    whenever the bit 0x08 of the SAK is set and the length is neither
    4 nor 7; and in every case one of the four labels or the fallback
    line. *)
Theorem get_card_type_table :
  get_card_type 0x08 4 = "MIFARE Classic 1K" /\
  get_card_type 0x08 7 = "MIFARE Classic 4K" /\
  (forall uid_length,
     get_card_type 0x20 uid_length = "MIFARE DESFire or SmartMX") /\
  (forall uid_length,
     get_card_type 0x00 uid_length = "MIFARE Ultralight/NTAG") /\
  (forall sak uid_length,
     String.eqb (get_card_type sak uid_length) "MIFARE Plus" = false) /\
  get_card_type 0x99 3 = "Unknown (SAK: 0x99, UID Length: 3)" /\
  contains "0x99" (get_card_type 0x99 3) = true /\
  contains "3" (get_card_type 0x99 3) = true /\
  (forall sak uid_length,
     Z.land sak 0x08 = 0x08 -> uid_length <> 4 -> uid_length <> 7 ->
     get_card_type sak uid_length = unknown_label sak uid_length) /\
  (forall sak uid_length,
     In (get_card_type sak uid_length)
        ["MIFARE Classic 1K"; "MIFARE Classic 4K";
         "MIFARE DESFire or SmartMX"; "MIFARE Ultralight/NTAG";
         unknown_label sak uid_length]).
Proof.
  repeat split; try reflexivity.
  - apply get_card_type_never_plus.
  - apply get_card_type_classic_other.
  - apply get_card_type_labels.
Qed.

(** The fallback line on a Classic-family SAK with a UID of 10 bytes. *)
Lemma get_card_type_table_witness :
  Z.land 0x18 0x08 = 0x08 /\ 10 <> 4 /\ 10 <> 7 /\
  get_card_type 0x18 10 = "Unknown (SAK: 0x18, UID Length: 10)".
Proof.
  split; [reflexivity|]. split; [discriminate|]. split; [discriminate|].
  destruct get_card_type_table as (_ & _ & _ & _ & _ & _ & _ & _ & H & _).
  apply (H 0x18 10); [reflexivity | discriminate | discriminate].
Defined.

(** ** Running a script *)

Section Running.

Context {W Ser : Type} {host : Host W Ser}.

Local Abbreviation script := (@M W Ser).
Local Abbreviation run A := (res A * W * list (event Ser))%type.

Lemma bind_ok {A B} (m : script A) (f : A -> script B) w a w1 t1 :
  m w = (Ok a, w1, t1) ->
  bind m f w = (let '(r, w2, t2) := f a w1 in (r, w2, (t1 ++ t2)%list)).
Proof. intros E. unfold bind. rewrite E. reflexivity. Qed.

Lemma bind_raise {A B} (m : script A) (f : A -> script B) w e w1 t1 :
  m w = (Raise e, w1, t1) -> bind m f w = (Raise e, w1, t1).
Proof. intros E. unfold bind. rewrite E. reflexivity. Qed.

Lemma bind_out_of_fuel {A B} (m : script A) (f : A -> script B) w w1 t1 :
  m w = (OutOfFuel, w1, t1) -> bind m f w = (OutOfFuel, w1, t1).
Proof. intros E. unfold bind. rewrite E. reflexivity. Qed.

Lemma try_except_ok {A} catches (m : script A) handler w a w1 t1 :
  m w = (Ok a, w1, t1) -> try_except catches m handler w = (Ok a, w1, t1).
Proof. intros E. unfold try_except. rewrite E. reflexivity. Qed.

Lemma try_except_caught {A} catches (m : script A) handler w e w1 t1 :
  m w = (Raise e, w1, t1) -> catches e = true ->
  try_except catches m handler w =
  (let '(r, w2, t2) := handler e w1 in (r, w2, (t1 ++ t2)%list)).
Proof. intros E C. unfold try_except. rewrite E, C. reflexivity. Qed.

Lemma try_except_passed {A} catches (m : script A) handler w e w1 t1 :
  m w = (Raise e, w1, t1) -> catches e = false ->
  try_except catches m handler w = (Raise e, w1, t1).
Proof. intros E C. unfold try_except. rewrite E, C. reflexivity. Qed.

(** *** Indexing *)

Lemma bytes_getitem_at (raw : bytes) (i : nat) (b : byte) (w : W) :
  nth_error raw i = Some b ->
  bytes_getitem raw (Z.of_nat i) w = ((Ok (byte_to_Z b), w, []) : run Z).
Proof.
  intros E. unfold bytes_getitem, py_getitem, bind, ret. cbv zeta.
  destruct (Z.ltb_spec (Z.of_nat i) 0) as [?|_]; [lia|].
  destruct (Z.ltb_spec (Z.of_nat i) 0) as [?|_]; [lia|].
  rewrite Nat2Z.id, E. reflexivity.
Qed.

(** An index from 0 to the length, excluded, never raises. *)
Lemma bytes_getitem_in_range (raw : bytes) (i : nat) (w : W) :
  (i < List.length raw)%nat ->
  exists b, nth_error raw i = Some b /\
            bytes_getitem raw (Z.of_nat i) w
            = ((Ok (byte_to_Z b), w, []) : run Z).
Proof.
  intros Hlt. destruct (nth_error_in_range raw Hlt) as [b E].
  exists b. split; [exact E|]. now apply bytes_getitem_at.
Qed.

(** An index at or past the length raises [IndexError]. *)
Lemma bytes_getitem_past_end (raw : bytes) (i : nat) (w : W) :
  (List.length raw <= i)%nat ->
  bytes_getitem raw (Z.of_nat i) w = ((Raise IndexError, w, []) : run Z).
Proof.
  intros Hge. unfold bytes_getitem, py_getitem, bind, raise. cbv zeta.
  destruct (Z.ltb_spec (Z.of_nat i) 0) as [?|_]; [lia|].
  destruct (Z.ltb_spec (Z.of_nat i) 0) as [?|_]; [lia|].
  rewrite Nat2Z.id, (proj2 (nth_error_None raw i) Hge). reflexivity.
Qed.

(** *** The parsing step of [read_rfid_uid] *)

Lemma parse_target_response_short (raw : bytes) (w : W) :
  (List.length raw < 20)%nat ->
  parse_target_response raw w = ((Ok None, w, []) : run (option string)).
Proof.
  intros Hlt. unfold parse_target_response, len.
  destruct (Z.ltb_spec (Z.of_nat (List.length raw)) 20) as [_|?]; [|lia].
  reflexivity.
Qed.

Lemma parse_target_response_long (raw : bytes) (w : W) (sak n : byte) :
  (20 <= List.length raw)%nat ->
  nth_error raw 11 = Some sak ->
  nth_error raw 12 = Some n ->
  parse_target_response raw w =
  ((Ok (Some (uid_hex (firstn (Z.to_nat (byte_to_Z n)) (skipn 13 raw)))),
    w,
    [EvPrint ("Card type: "
                ++ get_card_type (byte_to_Z sak) (byte_to_Z n))])
   : run (option string)).
Proof.
  intros Hlen Hsak Hn. unfold parse_target_response.
  destruct (Z.ltb_spec (len raw) 20) as [?|_]; [unfold len in *; lia|].
  pose proof (bytes_getitem_at raw 12 w Hn) as E12.
  pose proof (bytes_getitem_at raw 11 w Hsak) as E11.
  change (Z.of_nat 12) with 12 in E12. change (Z.of_nat 11) with 11 in E11.
  rewrite (bind_ok _ _ _ E12).
  assert (Hge : (len raw >=? 12) = true)
    by (apply Z.geb_le; unfold len; lia).
  rewrite Hge.
  rewrite (bind_ok (A:=unit) _ _ w (a:=tt) (w1:=w)
             (t1:=[EvPrint ("Card type: "
                     ++ get_card_type (byte_to_Z sak) (byte_to_Z n))])).
  - unfold ret. cbn [app].
    rewrite py_slice_from
      by (unfold len; pose proof (byte_to_Z_range n); lia).
    reflexivity.
  - rewrite (bind_ok _ _ _ E11). reflexivity.
Qed.

(** Whatever was received, the parsing step returns: no index it
    evaluates is out of range and the slice cannot raise. *)
Lemma parse_target_response_returns (raw : bytes) (w : W) :
  exists uid t,
    parse_target_response raw w = ((Ok uid, w, t) : run (option string)).
Proof.
  destruct (Nat.lt_ge_cases (List.length raw) 20) as [Hlt|Hge].
  - exists None, []. now apply parse_target_response_short.
  - destruct (@nth_error_in_range _ raw 11) as [sak Hsak]; [lia|].
    destruct (@nth_error_in_range _ raw 12) as [n Hn]; [lia|].
    eexists _, _. now apply parse_target_response_long with (sak := sak) (n := n).
Qed.

(** *** [read_rfid_uid] around its parsing step *)

(** The request ends by returning the bytes read or by the exception
    of the first call that threw; it never runs out of fuel. *)
Lemma request_target_outcome (ser : Ser) (w : W) :
  exists w1 t,
    (exists raw, request_target ser w = (Ok raw, w1, t)) \/
    (exists e, request_target ser w = (Raise e, w1, t)).
Proof.
  unfold request_target, bind, call.
  destruct (reset_input_buffer ser w) as [[[]|e1] w1]; cbn;
    [|eexists _, _; right; eexists; reflexivity].
  destruct (write ser READ_UID_COMMAND w1) as [[[]|e2] w2]; cbn;
    [|eexists _, _; right; eexists; reflexivity].
  destruct (sleep 300 w2) as [[[]|e3] w3]; cbn;
    [|eexists _, _; right; eexists; reflexivity].
  destruct (read ser 64 w3) as [[raw|e4] w4]; cbn;
    eexists _, _; [left|right]; eexists; reflexivity.
Qed.

Lemma read_rfid_uid_received (ser : Ser) (w w1 : W) raw t uid t2 :
  request_target ser w = (Ok raw, w1, t) ->
  parse_target_response raw w1 = (Ok uid, w1, t2) ->
  read_rfid_uid ser w = (Ok uid, w1, (t ++ t2)%list).
Proof.
  intros Ereq Eparse. unfold read_rfid_uid.
  apply try_except_ok. rewrite (bind_ok _ _ _ Ereq), Eparse. reflexivity.
Qed.

(** Lines 38-40: an [Exception] of the request is printed and turned
    into [None]. *)
Lemma read_rfid_uid_failed (ser : Ser) (w w1 : W) e t :
  request_target ser w = (Raise e, w1, t) ->
  is_Exception e = true ->
  read_rfid_uid ser w =
  (Ok None, w1, (t ++ [EvPrint ("Error reading UID: " ++ exn_str e)])%list).
Proof.
  intros Ereq Hexc. unfold read_rfid_uid.
  erewrite try_except_caught.
  - reflexivity.
  - apply bind_raise. exact Ereq.
  - exact Hexc.
Qed.

(** A write that throws, and a read that throws, end the request
    with that exception. *)
Lemma request_target_write_throws (ser : Ser) (w w1 w2 : W) e :
  reset_input_buffer ser w = (Returns tt, w1) ->
  write ser READ_UID_COMMAND w1 = (Throws e, w2) ->
  request_target ser w =
  (Raise e, w2, [EvReset ser; EvWrite ser READ_UID_COMMAND]).
Proof.
  intros Ereset Ewrite. unfold request_target, bind, call.
  rewrite Ereset. cbn. rewrite Ewrite. reflexivity.
Qed.

Lemma request_target_read_throws (ser : Ser) (w w1 w2 w3 w4 : W) e :
  reset_input_buffer ser w = (Returns tt, w1) ->
  write ser READ_UID_COMMAND w1 = (Returns tt, w2) ->
  sleep 300 w2 = (Returns tt, w3) ->
  read ser 64 w3 = (Throws e, w4) ->
  request_target ser w =
  (Raise e, w4,
   [EvReset ser; EvWrite ser READ_UID_COMMAND; EvSleep 300; EvRead ser 64]).
Proof.
  intros Ereset Ewrite Esleep Eread. unfold request_target, bind, call.
  rewrite Ereset. cbn. rewrite Ewrite. cbn. rewrite Esleep. cbn.
  rewrite Eread. reflexivity.
Qed.

(** What is not an [Exception] leaves [read_rfid_uid]. *)
Lemma read_rfid_uid_interrupted (ser : Ser) (w w1 : W) e t :
  request_target ser w = (Raise e, w1, t) ->
  is_Exception e = false ->
  read_rfid_uid ser w = (Raise e, w1, t).
Proof.
  intros Ereq Hexc. unfold read_rfid_uid.
  apply try_except_passed; [now apply bind_raise | exact Hexc].
Qed.

(** [read_rfid_uid] returns a string or [None], or is left by an
    exception that is not an [Exception]. *)
Lemma read_rfid_uid_outcome (ser : Ser) (w : W) :
  match read_rfid_uid ser w with
  | (Ok _, _, _) => True
  | (Raise e, _, _) => is_Exception e = false
  | (OutOfFuel, _, _) => False
  end.
Proof.
  destruct (request_target_outcome ser w) as (w1 & t & [[raw E]|[e E]]).
  - destruct (parse_target_response_returns raw w1) as (uid & t2 & Ep).
    now rewrite (read_rfid_uid_received _ _ E Ep).
  - destruct (is_Exception e) eqn:Hexc.
    + now rewrite (read_rfid_uid_failed _ _ E Hexc).
    + now rewrite (read_rfid_uid_interrupted _ _ E Hexc).
Qed.

(** ** The parsing step: claims *)

(** C1.  A response shorter than 20 bytes makes the parsing step
    return [None] at once, without printing and without an exception.
    A response of 20 bytes or more makes it succeed: the SAK is the
    byte at offset 11, the UID length the byte at offset 12, and the
    UID the bytes at the offsets from 13 up to 13 plus the UID length
    (those of them that are in the response); the step prints the
    card type of that SAK and length and returns the UID in
    hexadecimal.  [read_rfid_uid] returns what the step returns for
    the bytes its request received. *)
Theorem parse_target_response_spec (raw : bytes) (w : W) :
  ((List.length raw < 20)%nat ->
   parse_target_response raw w = ((Ok None, w, []) : run (option string)))
  /\
  ((20 <= List.length raw)%nat ->
   exists sak uid_length : byte,
     nth_error raw 11 = Some sak /\
     nth_error raw 12 = Some uid_length /\
     let uid := firstn (Z.to_nat (byte_to_Z uid_length)) (skipn 13 raw) in
     parse_target_response raw w =
     ((Ok (Some (uid_hex uid)), w,
       [EvPrint ("Card type: "
                   ++ get_card_type (byte_to_Z sak) (byte_to_Z uid_length))])
      : run (option string)) /\
     (forall i : nat,
        (i < Z.to_nat (byte_to_Z uid_length))%nat ->
        nth_error uid i = nth_error raw (13 + i)))
  /\
  (forall (ser : Ser) (w0 : W) t uid t2,
     request_target ser w0 = (Ok raw, w, t) ->
     parse_target_response raw w = (Ok uid, w, t2) ->
     read_rfid_uid ser w0 = (Ok uid, w, (t ++ t2)%list)).
Proof.
  split; [|split].
  - apply parse_target_response_short.
  - intros Hlen.
    destruct (@nth_error_in_range _ raw 11) as [sak Hsak]; [lia|].
    destruct (@nth_error_in_range _ raw 12) as [n Hn]; [lia|].
    exists sak, n. cbv zeta. repeat split; try assumption.
    + now apply parse_target_response_long.
    + intros i Hi. now apply nth_error_firstn_skipn.
  - intros ser w0 t uid t2. apply read_rfid_uid_received.
Qed.

(** C2, as the script has it.  When the UID length at offset 12 points
    past the end of a response of 20 bytes or more, the parsing step
    succeeds like for any other response: it returns, in hexadecimal,
    the bytes from offset 13 to the end of the response, which are
    fewer than the UID length, prints the card-type line and nothing
    else, and raises nothing. *)
Theorem parse_target_response_overrun (raw : bytes) (w : W)
    (sak uid_length : byte) :
  (20 <= List.length raw)%nat ->
  nth_error raw 11 = Some sak ->
  nth_error raw 12 = Some uid_length ->
  13 + byte_to_Z uid_length > len raw ->
  parse_target_response raw w =
  ((Ok (Some (uid_hex (skipn 13 raw))), w,
    [EvPrint ("Card type: "
                ++ get_card_type (byte_to_Z sak) (byte_to_Z uid_length))])
   : run (option string)) /\
  len (skipn 13 raw) = len raw - 13 /\
  len (skipn 13 raw) < byte_to_Z uid_length.
Proof.
  intros Hlen Hsak Hn Hover. unfold len in *.
  rewrite length_skipn. split; [|lia].
  rewrite parse_target_response_long with (sak := sak) (n := uid_length)
    by assumption.
  rewrite firstn_all2; [reflexivity|].
  rewrite length_skipn. lia.
Qed.

(** C10.  The parsing step of [read_rfid_uid] returns for every
    response: it indexes offsets 11 and 12 only past the test on the
    length, where both are in range; the UID is a slice, whose length
    is the UID length or what is left of the response after offset
    13, whichever is less; so no [IndexError] arises.
    [read_rfid_uid] as a whole returns a string or [None] and is
    left only by an exception that is not an [Exception]. *)
Theorem read_rfid_uid_total (raw : bytes) (w : W) :
  (exists uid t,
     parse_target_response raw w = ((Ok uid, w, t) : run (option string)))
  /\
  ((List.length raw < 20)%nat ->
   parse_target_response raw w = ((Ok None, w, []) : run (option string)))
  /\
  ((20 <= List.length raw)%nat ->
   exists sak uid_length : byte,
     bytes_getitem raw 11 w = ((Ok (byte_to_Z sak), w, []) : run Z) /\
     bytes_getitem raw 12 w = ((Ok (byte_to_Z uid_length), w, []) : run Z))
  /\
  (forall uid_length : byte,
     len (py_slice raw 13 (13 + byte_to_Z uid_length)) =
     Z.max 0 (Z.min (byte_to_Z uid_length) (len raw - 13)))
  /\
  (forall (ser : Ser) (w0 : W),
     match read_rfid_uid ser w0 with
     | (Ok _, _, _) => True
     | (Raise e, _, _) => is_Exception e = false
     | (OutOfFuel, _, _) => False
     end).
Proof.
  split; [|split; [|split; [|split]]].
  - apply parse_target_response_returns.
  - apply parse_target_response_short.
  - intros Hlen.
    destruct (@bytes_getitem_in_range raw 11 w) as (sak & _ & E11); [lia|].
    destruct (@bytes_getitem_in_range raw 12 w) as (n & _ & E12); [lia|].
    now exists sak, n.
  - intros n. pose proof (byte_to_Z_range n) as Hn.
    unfold py_slice, slice_bound, len.
    destruct (Z.ltb_spec 13 0) as [?|_]; [lia|].
    destruct (Z.ltb_spec (13 + byte_to_Z n) 0) as [?|_]; [lia|].
    rewrite length_firstn, length_skipn. lia.
  - apply read_rfid_uid_outcome.
Qed.

(** ** The probe of [find_pn532_port] *)

Lemma firmware_check_returns (raw : bytes) (w : W) :
  exists recognized : bool,
    firmware_check raw w = ((Ok recognized, w, []) : run bool) /\
    (recognized = true <-> looks_like_pn532 raw).
Proof.
  unfold firmware_check, looks_like_pn532.
  destruct (len raw >=? 10) eqn:Hlen.
  - apply Z.geb_le in Hlen. unfold len in Hlen.
    destruct (@nth_error_in_range _ raw 5) as [b5 H5]; [lia|].
    destruct (@nth_error_in_range _ raw 6) as [b6 H6]; [lia|].
    pose proof (bytes_getitem_at raw 5 w H5) as E5.
    pose proof (bytes_getitem_at raw 6 w H6) as E6.
    change (Z.of_nat 5) with 5 in E5. change (Z.of_nat 6) with 6 in E6.
    rewrite (bind_ok _ _ _ E5).
    destruct (Z.eqb_spec (byte_to_Z b5) 213) as [Eb5|Nb5].
    + rewrite (bind_ok _ _ _ E6). unfold ret. cbn [app].
      exists (byte_to_Z b6 =? 3). split; [reflexivity|].
      change 213 with (byte_to_Z xd5) in Eb5.
      apply byte_to_Z_inj in Eb5. subst b5.
      split.
      * intros Eb6. apply Z.eqb_eq in Eb6.
        change 3 with (byte_to_Z x03) in Eb6.
        apply byte_to_Z_inj in Eb6. subst b6.
        repeat split; [lia | assumption | assumption].
      * intros (_ & _ & H6'). rewrite H6 in H6'.
        injection H6' as ->. reflexivity.
    + exists false. split; [reflexivity|].
      split; [discriminate|].
      intros (_ & H5' & _). rewrite H5 in H5'. injection H5' as ->.
      now elim Nb5.
  - exists false. split; [reflexivity|].
    split; [discriminate|].
    intros (Hlen' & _).
    assert (Hge : (len raw >=? 10) = true)
      by (apply Z.geb_le; unfold len; lia).
    congruence.
Qed.

Lemma firmware_versions_returns (raw : bytes) (w : W) :
  (10 <= List.length raw)%nat ->
  exists ic fw rev : byte,
    nth_error raw 7 = Some ic /\
    nth_error raw 8 = Some fw /\
    nth_error raw 9 = Some rev /\
    firmware_versions raw w =
    ((Ok {| ic_version := byte_to_Z ic; fw_version := byte_to_Z fw;
            fw_revision := byte_to_Z rev |}, w, []) : run firmware).
Proof.
  intros Hlen.
  destruct (@nth_error_in_range _ raw 7) as [ic H7]; [lia|].
  destruct (@nth_error_in_range _ raw 8) as [fw H8]; [lia|].
  destruct (@nth_error_in_range _ raw 9) as [rev H9]; [lia|].
  exists ic, fw, rev. repeat split; try assumption.
  pose proof (bytes_getitem_at raw 7 w H7) as E7.
  pose proof (bytes_getitem_at raw 8 w H8) as E8.
  pose proof (bytes_getitem_at raw 9 w H9) as E9.
  change (Z.of_nat 7) with 7 in E7. change (Z.of_nat 8) with 8 in E8.
  change (Z.of_nat 9) with 9 in E9.
  unfold firmware_versions.
  rewrite (bind_ok _ _ _ E7), (bind_ok _ _ _ E8), (bind_ok _ _ _ E9).
  reflexivity.
Qed.

(** A round whose response is recognised returns the open port. *)
Lemma try_port_recognized (p : port_info) (w w1 w2 : W) ser raw t v :
  Serial (device p) 115200 1 w = (Returns ser, w1) ->
  probe_request ser w1 = (Ok raw, w2, t) ->
  firmware_check raw w2 = ((Ok true, w2, []) : run bool) ->
  firmware_versions raw w2 = ((Ok v, w2, []) : run firmware) ->
  try_port p w =
  (Ok (Some ser), w2,
   ([EvPrint (trying_line p); EvOpen (device p) (Some ser)] ++ t ++
    [EvPrint ("PN532 found on " ++ device p ++ "!");
     EvPrint ("Firmware version: " ++ str_int (fw_version v) ++ "."
                ++ str_int (fw_revision v))])%list).
Proof.
  intros Eopen Eprobe Echeck Ever.
  unfold try_port, try_except, bind at 1, print at 1. cbv zeta.
  unfold bind at 1, call_open. rewrite Eopen.
  rewrite (bind_ok _ _ _ Eprobe), (bind_ok _ _ _ Echeck).
  unfold bind at 1, print at 1.
  rewrite (bind_ok _ _ _ Ever). unfold bind, print, ret.
  reflexivity.
Qed.

(** A round whose response is not recognised closes the port and
    yields no port, whatever [close] does. *)
Lemma try_port_not_recognized (p : port_info) (w w1 w2 w3 : W)
    ser raw t closed :
  Serial (device p) 115200 1 w = (Returns ser, w1) ->
  probe_request ser w1 = (Ok raw, w2, t) ->
  firmware_check raw w2 = ((Ok false, w2, []) : run bool) ->
  close ser w2 = (closed, w3) ->
  exists r rest,
    try_port p w =
    (r, w3,
     ([EvPrint (trying_line p); EvOpen (device p) (Some ser)] ++ t ++
      EvClose ser :: rest)%list) /\
    r <> Ok (Some ser) /\
    (closed = Returns tt ->
     r = Ok None /\
     rest = [EvPrint ("No PN532 response on " ++ device p)]).
Proof.
  intros Eopen Eprobe Echeck Eclose.
  unfold try_port, try_except, bind at 1, print at 1. cbv zeta.
  unfold bind at 1, call_open. rewrite Eopen.
  rewrite (bind_ok _ _ _ Eprobe), (bind_ok _ _ _ Echeck).
  unfold bind, call, print, ret. rewrite Eclose.
  destruct closed as [[]|e]; cbn.
  - eexists _, _. split; [reflexivity|].
    split; [discriminate|]. intros _. split; reflexivity.
  - destruct (is_Exception e) eqn:Hexc; cbn.
    + eexists _, _. split; [rewrite <- app_assoc; reflexivity|].
      split; discriminate.
    + eexists _, _. split; [reflexivity|].
      split; discriminate.
Qed.

(** The probe itself never closes the port and writes nothing but
    the two commands. *)
Lemma probe_request_events (ser : Ser) (w : W) (ev : event Ser) :
  In ev (snd (probe_request ser w)) ->
  In ev [EvReset ser; EvWrite ser wake_cmd; EvSleep 100;
         EvWrite ser firmware_cmd; EvRead ser 20].
Proof.
  unfold probe_request, bind, call.
  destruct (reset_input_buffer ser w) as [[[]|e1] w1]; cbn;
    [|intuition auto].
  destruct (write ser wake_cmd w1) as [[[]|e2] w2]; cbn;
    [|intuition auto].
  destruct (sleep 100 w2) as [[[]|e3] w3]; cbn; [|intuition auto].
  destruct (write ser firmware_cmd w3) as [[[]|e4] w4]; cbn;
    [|intuition auto].
  destruct (sleep 100 w4) as [[[]|e5] w5]; cbn; [|intuition auto].
  destruct (read ser 20 w5) as [[raw|e6] w6]; cbn; intuition auto.
Qed.

Lemma request_target_events (ser : Ser) (w : W) (ev : event Ser) :
  In ev (snd (request_target ser w)) ->
  In ev [EvReset ser; EvWrite ser READ_UID_COMMAND; EvSleep 300;
         EvRead ser 64].
Proof.
  unfold request_target, bind, call.
  destruct (reset_input_buffer ser w) as [[[]|e1] w1]; cbn;
    [|intuition auto].
  destruct (write ser READ_UID_COMMAND w1) as [[[]|e2] w2]; cbn;
    [|intuition auto].
  destruct (sleep 300 w2) as [[[]|e3] w3]; cbn; [|intuition auto].
  destruct (read ser 64 w3) as [[raw|e4] w4]; cbn; intuition auto.
Qed.

(** A round in which a call of the probe throws an [Exception] goes
    to the [except] clause of line 116, which prints and closes
    nothing. *)
Lemma try_port_probe_failed (p : port_info) (w w1 w2 : W) ser e t :
  Serial (device p) 115200 1 w = (Returns ser, w1) ->
  probe_request ser w1 = (Raise e, w2, t) ->
  is_Exception e = true ->
  try_port p w =
  (Ok None, w2,
   ([EvPrint (trying_line p); EvOpen (device p) (Some ser)] ++ t ++
    [EvPrint ("Error on " ++ device p ++ ": " ++ exn_str e)])%list) /\
  ~ In (EvClose ser) t.
Proof.
  intros Eopen Eprobe Hexc. split.
  - unfold try_port, try_except, bind at 1, print at 1. cbv zeta.
    unfold bind at 1, call_open. rewrite Eopen.
    rewrite (bind_raise _ _ _ Eprobe), Hexc.
    unfold bind, print, ret. cbn [app]. reflexivity.
  - intros Hin.
    pose proof (@probe_request_events ser w1 (EvClose ser)) as Hev.
    rewrite Eprobe in Hev. specialize (Hev Hin).
    cbn in Hev. intuition discriminate.
Qed.

(** A port that cannot be opened is reported and skipped. *)
Lemma try_port_open_failed (p : port_info) (w w1 : W) e :
  Serial (device p) 115200 1 w = (Throws e, w1) ->
  is_Exception e = true ->
  try_port p w =
  (Ok None, w1,
   [EvPrint (trying_line p); EvOpen (device p) None;
    EvPrint ("Error on " ++ device p ++ ": " ++ exn_str e)]).
Proof.
  intros Eopen Hexc.
  unfold try_port, try_except, bind at 1, print at 1. cbv zeta.
  unfold bind at 1, call_open. rewrite Eopen, Hexc. reflexivity.
Qed.

(** *** The probe: claims *)

(** C3.  The test of the probe on the response read fails exactly
    when the response is shorter than 10 bytes or its bytes at
    offsets 5 and 6 are not D5 and 03; it never raises.  When it
    passes, the three locals are the bytes at offsets 7, 8 and 9, and
    the round returns the open port after printing the firmware
    version from the last two.  When it fails, the round closes the
    port and does not return it. *)
Theorem firmware_check_spec (raw : bytes) (w : W) :
  exists recognized : bool,
    firmware_check raw w = ((Ok recognized, w, []) : run bool) /\
    (recognized = false <->
     ((List.length raw < 10)%nat \/
      ~ (nth_error raw 5 = Some xd5 /\ nth_error raw 6 = Some x03))) /\
    (recognized = true ->
     exists ic fw rev : byte,
       nth_error raw 7 = Some ic /\
       nth_error raw 8 = Some fw /\
       nth_error raw 9 = Some rev /\
       firmware_versions raw w =
       ((Ok {| ic_version := byte_to_Z ic; fw_version := byte_to_Z fw;
               fw_revision := byte_to_Z rev |}, w, []) : run firmware) /\
       forall (p : port_info) (w0 w1 : W) (ser : Ser) t,
         Serial (device p) 115200 1 w0 = (Returns ser, w1) ->
         probe_request ser w1 = (Ok raw, w, t) ->
         try_port p w0 =
         (Ok (Some ser), w,
          ([EvPrint (trying_line p); EvOpen (device p) (Some ser)] ++ t ++
           [EvPrint ("PN532 found on " ++ device p ++ "!");
            EvPrint ("Firmware version: " ++ str_int (byte_to_Z fw) ++ "."
                       ++ str_int (byte_to_Z rev))])%list)) /\
    (recognized = false ->
     forall (p : port_info) (w0 w1 : W) (ser : Ser) t,
       Serial (device p) 115200 1 w0 = (Returns ser, w1) ->
       probe_request ser w1 = (Ok raw, w, t) ->
       exists r w3 rest,
         try_port p w0 =
         (r, w3,
          ([EvPrint (trying_line p); EvOpen (device p) (Some ser)] ++ t ++
           EvClose ser :: rest)%list) /\
         r <> Ok (Some ser)).
Proof.
  destruct (firmware_check_returns raw w) as (b & Echeck & Hiff).
  exists b. split; [exact Echeck|]. split; [|split].
  - unfold looks_like_pn532 in Hiff. split.
    + intros ->.
      destruct (Nat.lt_ge_cases (List.length raw) 10) as [?|Hge];
        [now left|].
      right. intros [H5 H6].
      assert (false = true) by (apply Hiff; auto). discriminate.
    + intros Hnot. destruct b; [|reflexivity].
      destruct (proj1 Hiff eq_refl) as (Hlen & H5 & H6).
      destruct Hnot as [Hlt|Hne]; [lia|]. elim Hne. now split.
  - intros ->.
    destruct (proj1 Hiff eq_refl) as (Hlen & _).
    destruct (firmware_versions_returns raw w Hlen)
      as (ic & fw & rev & H7 & H8 & H9 & Ever).
    exists ic, fw, rev. repeat split; try assumption.
    intros p w0 w1 ser t Eopen Eprobe.
    erewrite try_port_recognized; [|eassumption ..]. reflexivity.
  - intros -> p w0 w1 ser t Eopen Eprobe.
    destruct (close ser w) as [closed w3] eqn:Eclose.
    destruct (@try_port_not_recognized p w0 w1 w w3 ser raw t closed
                Eopen Eprobe Echeck Eclose)
      as (r & rest & Etry & Hne & _).
    now exists r, w3, rest.
Qed.

(** C7.  When the enumeration returns no port, [find_pn532_port]
    prints that it found none and returns [None]; between its first
    line and that one it has made the enumeration call and no
    other. *)
Theorem find_pn532_port_no_ports (w w1 : W) :
  comports w = (Returns [], w1) ->
  find_pn532_port w =
  ((Ok None, w1,
    [EvPrint "Scanning for available serial ports..."; EvComports;
     EvPrint "No serial ports found."]) : run (option Ser)).
Proof.
  intros Eports. unfold find_pn532_port, bind, call, print, ret.
  rewrite Eports. reflexivity.
Qed.

(** ** The command frames *)

(** The parsing step only prints. *)
Lemma parse_target_response_prints (raw : bytes) (w : W) (ev : event Ser) :
  In ev (snd (parse_target_response raw w)) -> exists line, ev = EvPrint line.
Proof.
  destruct (Nat.lt_ge_cases (List.length raw) 20) as [Hlt|Hge].
  - rewrite parse_target_response_short by assumption. intros [].
  - destruct (@nth_error_in_range _ raw 11) as [sak Hsak]; [lia|].
    destruct (@nth_error_in_range _ raw 12) as [n Hn]; [lia|].
    rewrite parse_target_response_long with (sak := sak) (n := n)
      by assumption.
    cbn. intros [<-|[]]. eexists. reflexivity.
Qed.

(** Whatever [read_rfid_uid] writes, it writes to the port it was
    given, and it is the read-UID command. *)
Lemma read_rfid_uid_writes (ser : Ser) (w : W) (s : Ser) (data : bytes) :
  In (EvWrite s data) (snd (read_rfid_uid ser w)) ->
  s = ser /\ data = READ_UID_COMMAND.
Proof.
  intros Hin.
  assert (Hreq : In (EvWrite s data) (snd (request_target ser w))).
  { destruct (request_target_outcome ser w) as (w1 & t & [[raw E]|[e E]]).
    - destruct (parse_target_response_returns raw w1) as (uid & t2 & Ep).
      rewrite (read_rfid_uid_received _ _ E Ep) in Hin. rewrite E.
      cbn in *. apply in_app_or in Hin. destruct Hin as [Hin|Hin]; [exact Hin|].
      pose proof (@parse_target_response_prints raw w1 (EvWrite s data)) as Hp.
      rewrite Ep in Hp. destruct (Hp Hin) as [line Hline]. discriminate.
    - rewrite E. destruct (is_Exception e) eqn:Hexc.
      + rewrite (read_rfid_uid_failed _ _ E Hexc) in Hin. cbn in *.
        apply in_app_or in Hin. destruct Hin as [Hin|[Hin|[]]];
          [exact Hin | discriminate].
      + rewrite (read_rfid_uid_interrupted _ _ E Hexc) in Hin. exact Hin. }
  apply request_target_events in Hreq. cbn in Hreq.
  destruct Hreq as [H|[H|[H|[H|[]]]]]; try discriminate.
  injection H as <- <-. now split.
Qed.

(** C8.  The read-UID command is the 11 bytes
    00 00 FF 04 FC D4 4A 01 00 E1 00, the wake command the 5 bytes
    55 55 00 00 00 and the firmware query the 9 bytes
    00 00 FF 02 FE D4 02 2A 00; [read_rfid_uid] writes nothing but
    the first and the probe nothing but the other two. *)
Theorem command_frames :
  (READ_UID_COMMAND =
     [x00; x00; xff; x04; xfc; xd4; x4a; x01; x00; xe1; x00] /\
   map byte_to_Z READ_UID_COMMAND =
     [0x00; 0x00; 0xFF; 0x04; 0xFC; 0xD4; 0x4A; 0x01; 0x00; 0xE1; 0x00] /\
   len READ_UID_COMMAND = 11) /\
  (wake_cmd = [x55; x55; x00; x00; x00] /\
   map byte_to_Z wake_cmd = [0x55; 0x55; 0x00; 0x00; 0x00] /\
   len wake_cmd = 5) /\
  (firmware_cmd = [x00; x00; xff; x02; xfe; xd4; x02; x2a; x00] /\
   map byte_to_Z firmware_cmd =
     [0x00; 0x00; 0xFF; 0x02; 0xFE; 0xD4; 0x02; 0x2A; 0x00] /\
   len firmware_cmd = 9) /\
  (forall (ser : Ser) (w : W) (s : Ser) (data : bytes),
     In (EvWrite s data) (snd (read_rfid_uid ser w)) ->
     data = [x00; x00; xff; x04; xfc; xd4; x4a; x01; x00; xe1; x00]) /\
  (forall (ser : Ser) (w : W) (s : Ser) (data : bytes),
     In (EvWrite s data) (snd (probe_request ser w)) ->
     data = [x55; x55; x00; x00; x00] \/
     data = [x00; x00; xff; x02; xfe; xd4; x02; x2a; x00]).
Proof.
  repeat split; try reflexivity.
  - intros ser w s data Hin. now apply read_rfid_uid_writes in Hin.
  - intros ser w s data Hin. apply probe_request_events in Hin.
    cbn in Hin.
    destruct Hin as [H|[H|[H|[H|[H|[]]]]]]; try discriminate;
      injection H as _ <-; [now left | now right].
Qed.

(** ** The poll loop *)

(** A round whose read gave nothing truthy sleeps and goes on. *)
Lemma poll_loop_round_continue (fuel : nat) (ser : Ser) (w w1 : W) uid t :
  read_rfid_uid ser w = (Ok uid, w1, t) ->
  truthy uid = false ->
  poll_loop (S fuel) ser w =
  (let '(r, w2, t2) :=
     (call (EvSleep 500) (sleep 500) ;; poll_loop fuel ser) w1 in
   (r, w2, (t ++ t2)%list)).
Proof.
  intros Eread Hfalse. cbn [poll_loop].
  rewrite (bind_ok _ _ _ Eread), Hfalse. reflexivity.
Qed.

(** A round whose read gave a non-empty string ends the loop. *)
Lemma poll_loop_round_break (fuel : nat) (ser : Ser) (w w1 : W) uid t :
  read_rfid_uid ser w = (Ok (Some uid), w1, t) ->
  truthy (Some uid) = true ->
  poll_loop (S fuel) ser w =
  (Ok tt, w1,
   (t ++ [EvPrint ("Card detected! UID: " ++ uid);
          EvPrint "Successfully read card. Exiting."])%list).
Proof.
  intros Eread Htrue. cbn [poll_loop].
  rewrite (bind_ok _ _ _ Eread), Htrue. reflexivity.
Qed.

(** C6, as the script has it.  An [Exception] thrown by a call of the
    poll request (reset, write, sleep or read) on the confirmed
    device does not end the poll loop: [read_rfid_uid] catches it,
    prints it and returns [None], and the loop sleeps and starts its
    next round. *)
Theorem poll_loop_retries_after_error (fuel : nat) (ser : Ser)
    (w w1 : W) e t :
  request_target ser w = (Raise e, w1, t) ->
  is_Exception e = true ->
  read_rfid_uid ser w =
  (Ok None, w1, (t ++ [EvPrint ("Error reading UID: " ++ exn_str e)])%list)
  /\
  poll_loop (S fuel) ser w =
  (let '(r, w2, t2) :=
     (call (EvSleep 500) (sleep 500) ;; poll_loop fuel ser) w1 in
   (r, w2,
    ((t ++ [EvPrint ("Error reading UID: " ++ exn_str e)]) ++ t2)%list)).
Proof.
  intros Ereq Hexc.
  pose proof (read_rfid_uid_failed _ _ Ereq Hexc) as Eread.
  split; [exact Eread|].
  now apply poll_loop_round_continue with (uid := None).
Qed.

(** C9.  A response of 20 bytes or more with 0 at offset 12 makes
    [read_rfid_uid] return the empty string, which is not truthy:
    the round ends like a round without a card, and the loop sleeps
    and starts its next round. *)
Theorem poll_loop_empty_uid (fuel : nat) (ser : Ser) (w w1 : W) raw t :
  request_target ser w = (Ok raw, w1, t) ->
  (20 <= List.length raw)%nat ->
  nth_error raw 12 = Some x00 ->
  exists line,
    read_rfid_uid ser w = (Ok (Some ""), w1, (t ++ [EvPrint line])%list) /\
    truthy (Some "") = false /\
    poll_loop (S fuel) ser w =
    (let '(r, w2, t2) :=
       (call (EvSleep 500) (sleep 500) ;; poll_loop fuel ser) w1 in
     (r, w2, ((t ++ [EvPrint line]) ++ t2)%list)).
Proof.
  intros Ereq Hlen Hzero.
  destruct (@nth_error_in_range _ raw 11) as [sak Hsak]; [lia|].
  pose proof (@parse_target_response_long raw w1 sak x00 Hlen Hsak Hzero)
    as Eparse.
  pose proof (read_rfid_uid_received _ _ Ereq Eparse) as Eread.
  eexists. split; [exact Eread|]. split; [reflexivity|].
  now apply poll_loop_round_continue with (uid := Some "").
Qed.

End Running.

(** ** Runs on the scripted host *)

Section Runs.

Import Sim.

Local Abbreviation run A := (res A * world * list (event nat))%type.

(** The parsing step on a frame of 19 bytes and on the frame of a
    MIFARE Classic 1K card, alone and inside [read_rfid_uid]. *)
Lemma parse_target_response_spec_witness :
  ((List.length short_frame < 20)%nat /\
   parse_target_response short_frame quiet
   = ((Ok None, quiet, []) : run (option string))) /\
  ((20 <= List.length card_frame)%nat /\
   parse_target_response card_frame quiet
   = ((Ok (Some "DE AD BE EF"), quiet,
       [EvPrint "Card type: MIFARE Classic 1K"]) : run (option string))) /\
  read_rfid_uid 0%nat card_world
  = (Ok (Some "DE AD BE EF"), card_world,
     [EvReset 0%nat; EvWrite 0%nat READ_UID_COMMAND; EvSleep 300;
      EvRead 0%nat 64; EvPrint "Card type: MIFARE Classic 1K"]).
Proof.
  split; [|split].
  - assert (H : (List.length short_frame < 20)%nat) by (vm_compute; lia).
    split; [exact H|].
    exact (proj1 (parse_target_response_spec (host := host)
                    short_frame quiet) H).
  - assert (H : (20 <= List.length card_frame)%nat) by (vm_compute; lia).
    split; [exact H|].
    destruct (proj1 (proj2 (parse_target_response_spec (host := host)
                              card_frame quiet)) H)
      as (sak & n & E11 & E12 & Ep & _).
    injection E11 as <-. injection E12 as <-. exact Ep.
  - exact (proj2 (proj2 (parse_target_response_spec (host := host)
                           card_frame card_world)) 0%nat card_world
             [EvReset 0%nat; EvWrite 0%nat READ_UID_COMMAND; EvSleep 300;
              EvRead 0%nat 64]
             (Some "DE AD BE EF")
             [EvPrint "Card type: MIFARE Classic 1K"]
             eq_refl eq_refl).
Defined.

(** C2, as stated, fails.  The frame [overrun_frame] has 20 bytes
    and announces a UID of 8 bytes, one more than it holds after
    offset 13.  The parsing step returns the 7 bytes there are as
    the UID of a card, and does exactly what it does on
    [exact_frame], the well-formed frame that announces 7 bytes:
    nothing tells the two apart. *)
Lemma parse_target_response_overrun_silent :
  13 + 8 > len overrun_frame /\
  nth_error overrun_frame 12 = Some x08 /\
  parse_target_response overrun_frame quiet
  = ((Ok (Some "01 02 03 04 05 06 07"), quiet,
      [EvPrint "Card type: MIFARE Ultralight/NTAG"]) : run (option string)) /\
  parse_target_response overrun_frame quiet
  = (parse_target_response exact_frame quiet : run (option string)).
Proof. repeat split. Qed.

(** The shortened UID of [overrun_frame]. *)
Lemma parse_target_response_overrun_witness :
  (20 <= List.length overrun_frame)%nat /\
  nth_error overrun_frame 11 = Some x00 /\
  nth_error overrun_frame 12 = Some x08 /\
  13 + byte_to_Z x08 > len overrun_frame /\
  parse_target_response overrun_frame quiet
  = ((Ok (Some "01 02 03 04 05 06 07"), quiet,
      [EvPrint "Card type: MIFARE Ultralight/NTAG"]) : run (option string)).
Proof.
  assert (H : (20 <= List.length overrun_frame)%nat) by (vm_compute; lia).
  split; [exact H|]. split; [reflexivity|]. split; [reflexivity|].
  split; [reflexivity|].
  exact (proj1 (@parse_target_response_overrun world nat overrun_frame
                  quiet x00 x08 H eq_refl eq_refl eq_refl)).
Defined.

(** No index out of range on a short frame nor on a frame whose UID
    length overruns it. *)
Lemma read_rfid_uid_total_witness :
  ((List.length short_frame < 20)%nat /\
   parse_target_response short_frame quiet
   = ((Ok None, quiet, []) : run (option string))) /\
  ((20 <= List.length overrun_frame)%nat /\
   exists sak uid_length : byte,
     bytes_getitem overrun_frame 11 quiet
     = ((Ok (byte_to_Z sak), quiet, []) : run Z) /\
     bytes_getitem overrun_frame 12 quiet
     = ((Ok (byte_to_Z uid_length), quiet, []) : run Z)) /\
  len (py_slice overrun_frame 13 (13 + byte_to_Z x08)) = 7.
Proof.
  pose proof (read_rfid_uid_total (host := host) short_frame quiet)
    as (_ & Hshort & _).
  pose proof (read_rfid_uid_total (host := host) overrun_frame quiet)
    as (_ & _ & Hlong & Hslice & _).
  split; [|split].
  - assert (H : (List.length short_frame < 20)%nat) by (vm_compute; lia).
    split; [exact H | exact (Hshort H)].
  - assert (H : (20 <= List.length overrun_frame)%nat) by (vm_compute; lia).
    split; [exact H | exact (Hlong H)].
  - exact (Hslice x08).
Defined.

(** The example of a firmware response: IC 0x32, version 1,
    revision 6. *)
Lemma firmware_frame_versions :
  firmware_versions firmware_frame quiet
  = ((Ok {| ic_version := 0x32; fw_version := 0x01; fw_revision := 0x06 |},
      quiet, []) : run firmware).
Proof. reflexivity. Qed.

(** A round of the scan on a port whose reader answers the firmware
    query. *)
Lemma firmware_check_spec_witness :
  firmware_check firmware_frame (start [COM 1] firmware_frame [])
  = ((Ok true, start [COM 1] firmware_frame [], []) : run bool) /\
  fst (fst (try_port (COM 1) reader_world)) = Ok (Some 0%nat) /\
  snd (try_port (COM 1) reader_world)
  = [EvPrint (trying_line (COM 1)); EvOpen "COM1" (Some 0%nat);
     EvReset 0%nat; EvWrite 0%nat wake_cmd; EvSleep 100;
     EvWrite 0%nat firmware_cmd; EvSleep 100; EvRead 0%nat 20;
     EvPrint "PN532 found on COM1!"; EvPrint "Firmware version: 1.6"].
Proof.
  split; [reflexivity|].
  destruct (firmware_check_spec (host := host) firmware_frame
              {| ports := [COM 1]; idle := firmware_frame; scenario := [];
                 next_ser := 1 |})
    as (b & Echeck & _ & Hfound & _).
  injection Echeck as <-.
  destruct (Hfound eq_refl) as (ic & fw & rev & _ & E8 & E9 & _ & Hport).
  injection E8 as <-. injection E9 as <-.
  rewrite (Hport (COM 1) reader_world _ 0%nat _ eq_refl eq_refl).
  split; reflexivity.
Defined.

(** C5 fails on the script.  In [leak_world] the first port opens
    and the write of the wake command throws.  The scan prints the
    error and goes on to the second port; the serial object of the
    first port is never closed.  (The second port, which answers
    nothing, is closed before the scan ends.) *)
Theorem find_pn532_port_leaks_on_error :
  fst (fst (find_pn532_port leak_world)) = Ok None /\
  snd (find_pn532_port leak_world)
  = [EvPrint "Scanning for available serial ports..."; EvComports;
     EvPrint "Found 2 ports:";
     EvPrint "1. COM1 - USB Serial Port";
     EvPrint "2. COM2 - USB Serial Port";
     EvPrint (trying_line (COM 1));
     EvOpen "COM1" (Some 0%nat); EvReset 0%nat; EvWrite 0%nat wake_cmd;
     EvPrint "Error on COM1: write timeout";
     EvPrint (trying_line (COM 2));
     EvOpen "COM2" (Some 1%nat); EvReset 1%nat; EvWrite 1%nat wake_cmd;
     EvSleep 100; EvWrite 1%nat firmware_cmd; EvSleep 100;
     EvRead 1%nat 20; EvClose 1%nat;
     EvPrint "No PN532 response on COM2";
     EvPrint "No PN532 device found on any port."] /\
  existsb (is_close 0) (snd (find_pn532_port leak_world)) = false /\
  existsb (is_close 1) (snd (find_pn532_port leak_world)) = true.
Proof. repeat split. Qed.

(** Ports that open and time out on every read are closed, each
    before the next one is tried. *)
Lemma find_pn532_port_closes_silent_ports :
  snd (find_pn532_port silent_world)
  = [EvPrint "Scanning for available serial ports..."; EvComports;
     EvPrint "Found 2 ports:";
     EvPrint "1. COM1 - USB Serial Port";
     EvPrint "2. COM2 - USB Serial Port";
     EvPrint (trying_line (COM 1));
     EvOpen "COM1" (Some 0%nat); EvReset 0%nat; EvWrite 0%nat wake_cmd;
     EvSleep 100; EvWrite 0%nat firmware_cmd; EvSleep 100;
     EvRead 0%nat 20; EvClose 0%nat;
     EvPrint "No PN532 response on COM1";
     EvPrint (trying_line (COM 2));
     EvOpen "COM2" (Some 1%nat); EvReset 1%nat; EvWrite 1%nat wake_cmd;
     EvSleep 100; EvWrite 1%nat firmware_cmd; EvSleep 100;
     EvRead 1%nat 20; EvClose 1%nat;
     EvPrint "No PN532 response on COM2";
     EvPrint "No PN532 device found on any port."].
Proof. reflexivity. Qed.

(** The scan on a host without serial ports. *)
Lemma find_pn532_port_no_ports_witness :
  comports quiet = (Returns [], quiet) /\
  find_pn532_port quiet
  = ((Ok None, quiet,
      [EvPrint "Scanning for available serial ports..."; EvComports;
       EvPrint "No serial ports found."]) : run (option nat)).
Proof.
  split; [reflexivity|].
  exact (@find_pn532_port_no_ports world nat host quiet quiet eq_refl).
Defined.

(** The commands written in a poll and in a probe. *)
Lemma command_frames_witness :
  In (EvWrite 0%nat READ_UID_COMMAND) (snd (read_rfid_uid 0%nat card_world)) /\
  In (EvWrite 0%nat wake_cmd) (snd (probe_request 0%nat reader_world)) /\
  READ_UID_COMMAND = [x00; x00; xff; x04; xfc; xd4; x4a; x01; x00; xe1; x00] /\
  (wake_cmd = [x55; x55; x00; x00; x00] \/
   wake_cmd = [x00; x00; xff; x02; xfe; xd4; x02; x2a; x00]).
Proof.
  assert (H1 : In (EvWrite 0%nat READ_UID_COMMAND)
                  (snd (read_rfid_uid 0%nat card_world)))
    by (right; left; reflexivity).
  assert (H2 : In (EvWrite 0%nat wake_cmd)
                  (snd (probe_request 0%nat reader_world)))
    by (right; left; reflexivity).
  destruct (@command_frames world nat host) as (_ & _ & _ & Hread & Hprobe).
  split; [exact H1|]. split; [exact H2|]. split.
  - exact (Hread 0%nat card_world 0%nat READ_UID_COMMAND H1).
  - exact (Hprobe 0%nat reader_world 0%nat wake_cmd H2).
Defined.

(** C6, as stated, fails.  In [flaky_world] the write of the first
    poll round throws.  The error is printed, and the loop is not
    over: after one round it is still running, and in its second
    round it sends the command again, reads the card and only then
    ends. *)
Lemma poll_continues_after_write_error :
  request_target 0%nat flaky_world
  = (Raise (SerialException "write timeout"),
     card_world,
     [EvReset 0%nat; EvWrite 0%nat READ_UID_COMMAND]) /\
  fst (fst (poll_loop 1 0%nat flaky_world)) = OutOfFuel /\
  snd (poll_loop 1 0%nat flaky_world)
  = [EvReset 0%nat; EvWrite 0%nat READ_UID_COMMAND;
     EvPrint "Error reading UID: write timeout"; EvSleep 500] /\
  poll 2 0%nat flaky_world
  = (Ok tt, card_world,
     [EvPrint "Scanning for a card... (will exit after successful read)";
      EvReset 0%nat; EvWrite 0%nat READ_UID_COMMAND;
      EvPrint "Error reading UID: write timeout";
      EvSleep 500;
      EvReset 0%nat; EvWrite 0%nat READ_UID_COMMAND; EvSleep 300;
      EvRead 0%nat 64;
      EvPrint "Card type: MIFARE Classic 1K";
      EvPrint "Card detected! UID: DE AD BE EF";
      EvPrint "Successfully read card. Exiting.";
      EvClose 0%nat]).
Proof. repeat split. Qed.

(** Two rounds of the loop on [flaky_world]: an error, then the card. *)
Lemma poll_loop_retries_after_error_witness :
  request_target 0%nat flaky_world
  = (Raise (SerialException "write timeout"),
     card_world,
     [EvReset 0%nat; EvWrite 0%nat READ_UID_COMMAND]) /\
  is_Exception (SerialException "write timeout") = true /\
  read_rfid_uid 0%nat flaky_world
  = (Ok None, card_world,
     [EvReset 0%nat; EvWrite 0%nat READ_UID_COMMAND;
      EvPrint "Error reading UID: write timeout"]) /\
  poll_loop 2 0%nat flaky_world
  = (Ok tt, card_world,
     [EvReset 0%nat; EvWrite 0%nat READ_UID_COMMAND;
      EvPrint "Error reading UID: write timeout";
      EvSleep 500;
      EvReset 0%nat; EvWrite 0%nat READ_UID_COMMAND; EvSleep 300;
      EvRead 0%nat 64;
      EvPrint "Card type: MIFARE Classic 1K";
      EvPrint "Card detected! UID: DE AD BE EF";
      EvPrint "Successfully read card. Exiting."]).
Proof.
  split; [reflexivity|]. split; [reflexivity|].
  exact (@poll_loop_retries_after_error world nat host 1 0%nat
           flaky_world card_world (SerialException "write timeout")
           [EvReset 0%nat; EvWrite 0%nat READ_UID_COMMAND]
           eq_refl eq_refl).
Defined.

(** A round of the loop on a device that reports a UID of length 0. *)
Lemma poll_loop_empty_uid_witness :
  request_target 0%nat empty_uid_world
  = (Ok empty_uid_frame, empty_uid_world,
     [EvReset 0%nat; EvWrite 0%nat READ_UID_COMMAND; EvSleep 300;
      EvRead 0%nat 64]) /\
  (20 <= List.length empty_uid_frame)%nat /\
  nth_error empty_uid_frame 12 = Some x00 /\
  exists line,
    read_rfid_uid 0%nat empty_uid_world
    = (Ok (Some ""), empty_uid_world,
       [EvReset 0%nat; EvWrite 0%nat READ_UID_COMMAND; EvSleep 300;
        EvRead 0%nat 64; EvPrint line]) /\
    truthy (Some "") = false /\
    fst (fst (poll_loop 1 0%nat empty_uid_world)) = OutOfFuel.
Proof.
  assert (H : (20 <= List.length empty_uid_frame)%nat) by (vm_compute; lia).
  split; [reflexivity|]. split; [exact H|]. split; [reflexivity|].
  destruct (@poll_loop_empty_uid world nat host 0 0%nat empty_uid_world
              empty_uid_world empty_uid_frame
              [EvReset 0%nat; EvWrite 0%nat READ_UID_COMMAND; EvSleep 300;
               EvRead 0%nat 64]
              eq_refl H eq_refl)
    as (line & Eread & Hfalse & Eloop).
  exists line. split; [exact Eread|]. split; [exact Hfalse|].
  rewrite Eloop. reflexivity.
Defined.

(** On a device that answers every poll with a UID of length 0 the
    loop never ends, however many rounds it is given. *)
Lemma poll_loop_empty_uid_forever (fuel : nat) :
  fst (fst (poll_loop fuel 0%nat empty_uid_world)) = OutOfFuel /\
  snd (fst (poll_loop fuel 0%nat empty_uid_world)) = empty_uid_world.
Proof.
  induction fuel as [|fuel [IHr IHw]]; [split; reflexivity|].
  rewrite poll_loop_round_continue
    with (uid := Some "") (w1 := empty_uid_world)
         (t := [EvReset 0%nat; EvWrite 0%nat READ_UID_COMMAND; EvSleep 300;
                EvRead 0%nat 64;
                EvPrint "Card type: Unknown (SAK: 0x08, UID Length: 0)"])
    by reflexivity.
  unfold bind, call. cbn [sleep host plain pop scenario empty_uid_world start
                          res_of_reply].
  destruct (poll_loop fuel 0%nat empty_uid_world) as [[r w2] t2].
  cbn in *. subst. split; reflexivity.
Qed.

End Runs.

(** ** The rendering of a UID *)

Lemma string_length_append (a b : string) :
  String.length (a ++ b) = (String.length a + String.length b)%nat.
Proof. induction a as [|c a IH]; cbn; [reflexivity | now rewrite IH]. Qed.

(** A byte is rendered as two characters, neither of them a space. *)
Lemma format_02X_byte_shape (b : byte) :
  exists c1 c2 : ascii,
    format_02X (byte_to_Z b) = String c1 (String c2 "") /\
    Ascii.eqb c1 " " = false /\ Ascii.eqb c2 " " = false.
Proof. destruct b; eexists _, _; repeat split. Qed.


Lemma uid_hex_cons (b : byte) (rest : bytes) :
  uid_hex (b :: rest) =
  format_02X (byte_to_Z b)
    ++ match rest with
       | [] => ""
       | _ :: _ => " " ++ uid_hex rest
       end.
Proof.
  unfold uid_hex. cbn [map join].
  destruct rest as [|b' rest]; cbn [map].
  - destruct (format_02X_byte_shape b) as (c1 & c2 & -> & _). reflexivity.
  - reflexivity.
Qed.

Lemma uid_hex_length_cons (b : byte) (rest : bytes) :
  String.length (uid_hex (b :: rest)) = (3 * List.length rest + 2)%nat.
Proof.
  revert b. induction rest as [|b' rest IH]; intros b.
  - rewrite uid_hex_cons.
    destruct (format_02X_byte_shape b) as (c1 & c2 & -> & _). reflexivity.
  - rewrite uid_hex_cons, string_length_append.
    destruct (format_02X_byte_shape b) as (c1 & c2 & -> & _).
    cbn [String.length append]. rewrite IH. cbn [List.length]. lia.
Qed.



(** ** The card-type table, read backwards *)

Lemma unknown_label_head (sak uid_length : Z) :
  exists rest, unknown_label sak uid_length = String "U" rest.
Proof. eexists. reflexivity. Qed.

(** X2.  Each label of [get_card_type] tells which branch gave it:
    Classic 1K and 4K mean bit 0x08 of the SAK with a UID of 4 and of
    7 bytes; DESFire or SmartMX means bit 0x20 without bit 0x08;
    Ultralight/NTAG means a SAK of 0; the fallback line means bit
    0x08 with another UID length, or a non-zero SAK without either
    bit. *)
Theorem get_card_type_inverse (sak uid_length : Z) :
  (get_card_type sak uid_length = "MIFARE Classic 1K" <->
   Z.land sak 0x08 = 0x08 /\ uid_length = 4) /\
  (get_card_type sak uid_length = "MIFARE Classic 4K" <->
   Z.land sak 0x08 = 0x08 /\ uid_length = 7) /\
  (get_card_type sak uid_length = "MIFARE DESFire or SmartMX" <->
   Z.land sak 0x08 <> 0x08 /\ Z.land sak 0x20 = 0x20) /\
  (get_card_type sak uid_length = "MIFARE Ultralight/NTAG" <-> sak = 0) /\
  (get_card_type sak uid_length = unknown_label sak uid_length <->
   (Z.land sak 0x08 = 0x08 /\ uid_length <> 4 /\ uid_length <> 7) \/
   (Z.land sak 0x08 <> 0x08 /\ Z.land sak 0x20 <> 0x20 /\ sak <> 0)).
Proof.
  destruct (unknown_label_head sak uid_length) as [rest Hu].
  unfold get_card_type. rewrite Hu.
  destruct (Z.eqb_spec (Z.land sak 8) 8) as [H8|H8];
    [destruct (Z.eqb_spec uid_length 4) as [H4|H4];
       [|destruct (Z.eqb_spec uid_length 7) as [H7|H7]]
    |destruct (Z.eqb_spec (Z.land sak 32) 32) as [H32|H32];
       [|destruct (Z.eqb_spec sak 0) as [H0|H0];
         [|destruct (Z.eqb_spec sak 32) as [Hs|Hs]]]];
    repeat split; intros;
    try discriminate; try tauto; try lia;
    try (subst; cbn in *; first [discriminate | lia | tauto]);
    try (exfalso;
         intuition (try discriminate; try lia; subst; cbn in *;
                    try discriminate; try lia)).
Qed.

(** A SAK with both bits set is a Classic card, not a DESFire one. *)
Lemma get_card_type_inverse_witness :
  get_card_type 0x28 4 = "MIFARE Classic 1K" /\
  get_card_type 0x28 4 <> "MIFARE DESFire or SmartMX".
Proof.
  destruct (get_card_type_inverse 0x28 4) as (H1K & _ & Hdes & _).
  split.
  - apply H1K. split; reflexivity.
  - intros H. apply Hdes in H. destruct H as [H _]. now apply H.
Defined.

(** ** Traces *)

Section Traces.

Context {Ser : Type}.

Lemma opened_ports_app (t1 t2 : list (event Ser)) :
  opened_ports (t1 ++ t2) = (opened_ports t1 ++ opened_ports t2)%list.
Proof.
  induction t1 as [|ev t1 IH]; [reflexivity|].
  destruct ev; cbn; now rewrite IH.
Qed.

Lemma close_count_app (t1 t2 : list (event Ser)) :
  close_count (t1 ++ t2) = (close_count t1 + close_count t2)%nat.
Proof.
  induction t1 as [|ev t1 IH]; [reflexivity|].
  destruct ev; cbn; now rewrite IH.
Qed.

(** A prefix of the calls of a request or of a probe opens and closes
    nothing. *)
Lemma request_calls_prefix (ser : Ser) (k : nat) :
  opened_ports (firstn k (request_calls ser)) = [] /\
  close_count (firstn k (request_calls ser)) = 0%nat.
Proof. do 5 (destruct k as [|k]; [split; reflexivity|]). split; reflexivity. Qed.

Lemma probe_calls_prefix (ser : Ser) (k : nat) :
  opened_ports (firstn k (probe_calls ser)) = [] /\
  close_count (firstn k (probe_calls ser)) = 0%nat.
Proof. do 7 (destruct k as [|k]; [split; reflexivity|]). split; reflexivity. Qed.

End Traces.

(** ** The exchanges with the reader *)

Section Exchanges.

Context {W Ser : Type} {host : Host W Ser}.

Local Abbreviation run A := (res A * W * list (event Ser))%type.

(** The poll request makes its four calls in order and stops at the
    first one that throws. *)
Lemma request_target_cases (ser : Ser) (w : W) :
  match request_target ser w with
  | (Ok _, _, t) => t = request_calls ser
  | (Raise _, _, t) =>
      exists k, (1 <= k <= 4)%nat /\ t = firstn k (request_calls ser)
  | (OutOfFuel, _, _) => False
  end.
Proof.
  unfold request_target, bind, call.
  destruct (reset_input_buffer ser w) as [[[]|e1] w1]; cbn;
    [|exists 1%nat; split; [lia | reflexivity]].
  destruct (write ser READ_UID_COMMAND w1) as [[[]|e2] w2]; cbn;
    [|exists 2%nat; split; [lia | reflexivity]].
  destruct (sleep 300 w2) as [[[]|e3] w3]; cbn;
    [|exists 3%nat; split; [lia | reflexivity]].
  destruct (read ser 64 w3) as [[raw|e4] w4]; cbn;
    [reflexivity | exists 4%nat; split; [lia | reflexivity]].
Qed.

(** So does the probe, with its six calls. *)
Lemma probe_request_cases (ser : Ser) (w : W) :
  match probe_request ser w with
  | (Ok _, _, t) => t = probe_calls ser
  | (Raise _, _, t) =>
      exists k, (1 <= k <= 6)%nat /\ t = firstn k (probe_calls ser)
  | (OutOfFuel, _, _) => False
  end.
Proof.
  unfold probe_request, bind, call.
  destruct (reset_input_buffer ser w) as [[[]|e1] w1]; cbn;
    [|exists 1%nat; split; [lia | reflexivity]].
  destruct (write ser wake_cmd w1) as [[[]|e2] w2]; cbn;
    [|exists 2%nat; split; [lia | reflexivity]].
  destruct (sleep 100 w2) as [[[]|e3] w3]; cbn;
    [|exists 3%nat; split; [lia | reflexivity]].
  destruct (write ser firmware_cmd w3) as [[[]|e4] w4]; cbn;
    [|exists 4%nat; split; [lia | reflexivity]].
  destruct (sleep 100 w4) as [[[]|e5] w5]; cbn;
    [|exists 5%nat; split; [lia | reflexivity]].
  destruct (read ser 20 w5) as [[raw|e6] w6]; cbn;
    [reflexivity | exists 6%nat; split; [lia | reflexivity]].
Qed.


End Exchanges.

(** ** The scan as a whole *)

Section Scanning.

Context {W Ser : Type} {host : Host W Ser}.

Local Abbreviation run A := (res A * W * list (event Ser))%type.

(** A round of the scan makes one [serial.Serial] call, right after
    its first line.  It yields the port it opened, after a complete
    probe and the two lines about the firmware, or no port, or an
    exception that is not an [Exception]. *)
Lemma try_port_cases (p : port_info) (w : W) :
  exists r w' o t,
    try_port p w =
    (r, w', EvPrint (trying_line p) :: EvOpen (device p) o :: t) /\
    opened_ports t = [] /\
    match r with
    | Ok None => True
    | Ok (Some ser) =>
        o = Some ser /\
        exists fwline,
          t = (probe_calls ser ++
               [EvPrint ("PN532 found on " ++ device p ++ "!");
                EvPrint fwline])%list
    | Raise e => is_Exception e = false
    | OutOfFuel => False
    end.
Proof.
  destruct (Serial (device p) 115200 1 w) as [[ser|e] w1] eqn:Eopen.
  - pose proof (probe_request_cases ser w1) as Hp.
    destruct (probe_request ser w1) as [[[raw|e|] w2] t] eqn:Eprobe.
    + subst t.
      destruct (@firmware_check_returns W Ser raw w2) as (b & Echeck & Hiff).
      destruct b.
      * destruct (proj1 Hiff eq_refl) as (Hlen & _).
        destruct (@firmware_versions_returns W Ser raw w2 Hlen)
          as (ic & fw & rev & _ & _ & _ & Ever).
        eexists _, _, _, _. split.
        { erewrite try_port_recognized; [|eassumption ..]. reflexivity. }
        split; [reflexivity|]. split; [reflexivity|].
        eexists. reflexivity.
      * unfold try_port, try_except, bind at 1, print at 1. cbv zeta.
        unfold bind at 1, call_open. rewrite Eopen.
        rewrite (bind_ok _ _ _ Eprobe), (bind_ok _ _ _ Echeck).
        unfold bind, call, print, ret.
        destruct (close ser w2) as [[[]|e] w3]; cbn;
          [|destruct (is_Exception e) eqn:Hexc; cbn];
          eexists _, _, _, _; (split; [reflexivity|]);
          (split; [reflexivity|]); auto.
    + destruct Hp as (k & _ & ->).
      destruct (is_Exception e) eqn:Hexc.
      * destruct (@try_port_probe_failed W Ser host p w w1 w2 ser e _
                    Eopen Eprobe Hexc) as [Etry _].
        eexists _, _, _, _. split; [exact Etry|].
        split; [|exact I].
        rewrite opened_ports_app.
        now rewrite (proj1 (probe_calls_prefix ser k)).
      * unfold try_port, try_except, bind at 1, print at 1. cbv zeta.
        unfold bind at 1, call_open. rewrite Eopen.
        rewrite (bind_raise _ _ _ Eprobe), Hexc. cbn.
        eexists _, _, _, _. split; [reflexivity|].
        split; [|exact Hexc].
        apply (proj1 (probe_calls_prefix ser k)).
    + contradiction.
  - destruct (is_Exception e) eqn:Hexc.
    + eexists _, _, _, _.
      split; [exact (@try_port_open_failed W Ser host p w w1 e Eopen Hexc)|].
      split; [reflexivity | exact I].
    + unfold try_port, try_except, bind at 1, print at 1. cbv zeta.
      unfold bind at 1, call_open. rewrite Eopen, Hexc. cbn.
      eexists _, _, _, _. split; [reflexivity|].
      split; [reflexivity | exact Hexc].
Qed.

(** The numbered list of lines 72-73 only prints. *)
Lemma print_ports_run (ports : list port_info) (i : Z) (w : W) :
  exists t,
    print_ports i ports w = ((Ok tt, w, t) : run unit) /\
    opened_ports t = [] /\ close_count t = 0%nat /\
    List.length t = List.length ports.
Proof.
  revert i. induction ports as [|p ports IH]; intros i.
  - exists []. repeat split.
  - destruct (IH (i + 1)) as (t & Et & Hop & Hcl & Hlen).
    eexists. cbn [print_ports]. unfold bind at 1, print at 1.
    rewrite Et. split; [reflexivity|]. cbn. now rewrite Hlen.
Qed.

(** The [for] loop tries the ports in order and stops at the first
    round that yields a port or is left by an exception. *)
Lemma scan_ports_cases (ports : list port_info) (w : W) :
  exists r w' t,
    scan_ports ports w = (r, w', t) /\
    match r with
    | Ok None => opened_ports t = map device ports
    | Ok (Some ser) =>
        exists pre p post t0 fwline,
          ports = (pre ++ p :: post)%list /\
          opened_ports t = map device (pre ++ [p]) /\
          t = (t0 ++ EvOpen (device p) (Some ser) :: probe_calls ser ++
               [EvPrint ("PN532 found on " ++ device p ++ "!");
                EvPrint fwline])%list
    | Raise e =>
        is_Exception e = false /\
        exists k, (1 <= k <= List.length ports)%nat /\
                  opened_ports t = firstn k (map device ports)
    | OutOfFuel => False
    end.
Proof.
  revert w. induction ports as [|p ports IH]; intros w.
  - exists (Ok None), w, []. split; reflexivity.
  - destruct (try_port_cases p w) as (r & w1 & o & t & Etry & Hop & Hr).
    cbn [scan_ports].
    destruct r as [[ser|]|e|].
    + destruct Hr as (-> & fwline & ->).
      rewrite (bind_ok _ _ _ Etry). unfold ret. rewrite app_nil_r.
      eexists _, _, _. split; [reflexivity|].
      exists [], p, ports, [EvPrint (trying_line p)], fwline.
      repeat split.
    + rewrite (bind_ok _ _ _ Etry).
      destruct (IH w1) as (r2 & w2 & t2 & Escan & Hr2). rewrite Escan.
      eexists _, _, _. split; [reflexivity|].
      destruct r2 as [[ser|]|e|].
      * destruct Hr2 as (pre & p' & post & t0 & fwline & -> & Hopen & ->).
        exists (p :: pre), p', post,
          (EvPrint (trying_line p) :: EvOpen (device p) o :: t ++ t0)%list,
          fwline.
        split; [reflexivity|]. split.
        -- cbn [opened_ports app map].
           rewrite opened_ports_app, Hop. cbn [app].
           now rewrite Hopen.
        -- cbn [app]. now rewrite <- app_assoc.
      * cbn [opened_ports app map].
        rewrite opened_ports_app, Hop. cbn [app]. now rewrite Hr2.
      * destruct Hr2 as (Hexc & k & Hk & Hopen).
        split; [exact Hexc|]. exists (S k).
        split; [cbn [List.length]; lia|].
        cbn [opened_ports app map firstn].
        rewrite opened_ports_app, Hop. cbn [app]. now rewrite Hopen.
      * contradiction.
    + rewrite (bind_raise _ _ _ Etry).
      eexists _, _, _. split; [reflexivity|].
      split; [exact Hr|]. exists 1%nat. split; [cbn; lia|].
      cbn. now rewrite Hop.
    + contradiction.
Qed.

(** [find_pn532_port] on a non-empty enumeration: the lines about the
    ports found, then the loop, then a last line if no port was
    confirmed. *)
Lemma find_pn532_port_scan (w w1 : W) (p : port_info) ports :
  comports w = (Returns (p :: ports), w1) ->
  exists t0,
    opened_ports t0 = [] /\ close_count t0 = 0%nat /\
    find_pn532_port w =
    (let '(r, w2, t) := scan_ports (p :: ports) w1 in
     match r with
     | Ok None =>
         (Ok None, w2,
          (t0 ++ t ++ [EvPrint "No PN532 device found on any port."])%list)
     | _ => (r, w2, (t0 ++ t)%list)
     end).
Proof.
  intros Eports.
  destruct (print_ports_run (p :: ports) 0 w1) as (tp & Etp & Hop & Hcl & _).
  exists ([EvPrint "Scanning for available serial ports..."; EvComports;
           EvPrint ("Found " ++ str_int (len (p :: ports)) ++ " ports:")]
          ++ tp)%list.
  split; [cbn; exact Hop|]. split; [cbn; exact Hcl|].
  unfold find_pn532_port, bind at 1, print at 1.
  unfold bind at 1, call at 1. rewrite Eports. cbn [res_of_reply].
  unfold bind at 1, print at 1.
  rewrite (bind_ok _ _ _ Etp).
  destruct (scan_ports (p :: ports) w1) as [[r w2] t] eqn:Escan.
  destruct r as [[ser|]|e|].
  - rewrite (bind_ok _ _ _ Escan). unfold ret. cbn.
    now rewrite app_nil_r.
  - rewrite (bind_ok _ _ _ Escan). unfold bind, print, ret. cbn.
    reflexivity.
  - rewrite (bind_raise _ _ _ Escan). reflexivity.
  - rewrite (bind_out_of_fuel _ _ _ Escan). reflexivity.
Qed.

Lemma map_device_prefix (pre post : list port_info) (p : port_info) :
  map device (pre ++ [p]) =
  firstn (S (List.length pre)) (map device (pre ++ p :: post)).
Proof.
  induction pre as [|q pre IH]; [reflexivity|].
  cbn [app map List.length]. rewrite IH. reflexivity.
Qed.

(** X4.  Once the enumeration has returned its ports,
    [find_pn532_port] opens them in the order of the enumeration,
    each at most once.  When it returns [None] it has tried every
    port; when it returns a port or is left by an exception it has
    tried the first k ports only, for some k of at least 1.  The
    exception is then not an [Exception]: the errors of a candidate
    stay inside its round. *)
Theorem find_pn532_port_in_order (w w1 : W) (ports : list port_info) :
  comports w = (Returns ports, w1) ->
  match find_pn532_port w with
  | (Ok None, _, t) => opened_ports t = map device ports
  | (Ok (Some _), _, t) =>
      exists k, (1 <= k <= List.length ports)%nat /\
                opened_ports t = firstn k (map device ports)
  | (Raise e, _, t) =>
      is_Exception e = false /\
      exists k, (1 <= k <= List.length ports)%nat /\
                opened_ports t = firstn k (map device ports)
  | (OutOfFuel, _, _) => False
  end.
Proof.
  intros Eports. destruct ports as [|p ports].
  - unfold find_pn532_port, bind, call, print, ret. rewrite Eports.
    reflexivity.
  - destruct (find_pn532_port_scan _ Eports) as (t0 & Hop0 & _ & ->).
    destruct (scan_ports_cases (p :: ports) w1)
      as (r & w2 & t & -> & Hr).
    destruct r as [[ser|]|e|].
    + destruct Hr as (pre & p' & post & t1 & fwline & Hports & Hopen & _).
      exists (S (List.length pre)). rewrite opened_ports_app, Hop0.
      cbn [app]. rewrite Hopen, Hports. split.
      * rewrite length_app. cbn [List.length]. lia.
      * apply map_device_prefix.
    + rewrite !opened_ports_app, Hop0, Hr. cbn. now rewrite app_nil_r.
    + destruct Hr as (Hexc & k & Hk & Hopen).
      split; [exact Hexc|]. exists k. split; [exact Hk|].
      rewrite opened_ports_app, Hop0. exact Hopen.
    + contradiction.
Qed.

(** X5.  When [find_pn532_port] returns a port, the run ends with
    the opening of that port, the six calls of a complete probe on
    it, and the two lines about the reader found: the port returned
    is the last one opened, it has just answered, and nothing was
    called on it since; in particular it was not closed. *)
Theorem find_pn532_port_returns_answering_port (w w' : W) (ser : Ser) t :
  find_pn532_port w = (Ok (Some ser), w', t) ->
  exists t0 port fwline,
    t = (t0 ++
         EvOpen port (Some ser) ::
         [EvReset ser; EvWrite ser wake_cmd; EvSleep 100;
          EvWrite ser firmware_cmd; EvSleep 100; EvRead ser 20] ++
         [EvPrint ("PN532 found on " ++ port ++ "!"); EvPrint fwline])%list.
Proof.
  intros Efind.
  destruct (comports w) as [[[|p ports]|e] w1] eqn:Eports.
  - unfold find_pn532_port, bind, call, print, ret in Efind.
    rewrite Eports in Efind. discriminate Efind.
  - destruct (find_pn532_port_scan _ Eports) as (t0 & _ & _ & Eq).
    rewrite Eq in Efind. clear Eq.
    destruct (scan_ports_cases (p :: ports) w1)
      as (r & w2 & t1 & Escan & Hr).
    rewrite Escan in Efind.
    destruct r as [[ser'|]|e|]; try discriminate Efind.
    injection Efind as -> -> <-.
    destruct Hr as (pre & p' & post & t2 & fwline & _ & _ & ->).
    exists (t0 ++ t2)%list, (device p'), fwline.
    now rewrite <- app_assoc.
  - unfold find_pn532_port, bind, call, print, ret in Efind.
    rewrite Eports in Efind. discriminate Efind.
Qed.

End Scanning.

(** ** The poll and the entry point *)

Section Polling.

Context {W Ser : Type} {host : Host W Ser}.

Local Abbreviation run A := (res A * W * list (event Ser))%type.

(** [read_rfid_uid] opens and closes nothing. *)
Lemma read_rfid_uid_quiet (ser : Ser) (w : W) :
  opened_ports (snd (read_rfid_uid ser w)) = [] /\
  close_count (snd (read_rfid_uid ser w)) = 0%nat.
Proof.
  pose proof (request_target_cases ser w) as Hreq.
  destruct (request_target ser w) as [[[raw|e|] w1] t] eqn:Ereq.
  - subst t.
    assert (Hparse : exists uid t2,
               parse_target_response raw w1
               = ((Ok uid, w1, t2) : run (option string)) /\
               opened_ports t2 = [] /\ close_count t2 = 0%nat).
    { destruct (Nat.lt_ge_cases (List.length raw) 20) as [Hlt|Hge].
      - exists None, []. split; [|split; reflexivity].
        now apply parse_target_response_short.
      - destruct (@nth_error_in_range _ raw 11) as [sak Hsak]; [lia|].
        destruct (@nth_error_in_range _ raw 12) as [n Hn]; [lia|].
        eexists _, _. split; [|split].
        + now apply parse_target_response_long with (sak := sak) (n := n).
        + reflexivity.
        + reflexivity. }
    destruct Hparse as (uid & t2 & Ep & Hop & Hcl).
    rewrite (read_rfid_uid_received _ _ Ereq Ep). cbn [snd].
    rewrite opened_ports_app, close_count_app, Hop, Hcl. split; reflexivity.
  - destruct Hreq as (k & _ & ->).
    destruct (request_calls_prefix ser k) as [Hop Hcl].
    destruct (is_Exception e) eqn:Hexc.
    + rewrite (read_rfid_uid_failed _ _ Ereq Hexc). cbn [snd].
      rewrite opened_ports_app, close_count_app, Hop, Hcl.
      split; reflexivity.
    + rewrite (read_rfid_uid_interrupted _ _ Ereq Hexc). cbn [snd].
      now split.
  - contradiction.
Qed.

(** Neither does the loop, however long it runs. *)
Lemma poll_loop_quiet (fuel : nat) (ser : Ser) (w : W) :
  opened_ports (snd (poll_loop fuel ser w)) = [] /\
  close_count (snd (poll_loop fuel ser w)) = 0%nat.
Proof.
  revert w. induction fuel as [|fuel IH]; intros w; [split; reflexivity|].
  destruct (read_rfid_uid_quiet ser w) as [Hop Hcl].
  destruct (read_rfid_uid ser w) as [[[uid|e|] w1] t] eqn:Eread;
    cbn [snd] in Hop, Hcl.
  - destruct (truthy uid) eqn:Htruthy.
    + cbn [poll_loop]. rewrite (bind_ok _ _ _ Eread), Htruthy.
      unfold bind, print, ret. cbn [snd].
      rewrite opened_ports_app, close_count_app, Hop, Hcl.
      split; reflexivity.
    + rewrite (poll_loop_round_continue fuel _ _ Eread Htruthy).
      unfold bind, call.
      destruct (sleep 500 w1) as [[[]|e] w2]; cbn [res_of_reply].
      * destruct (IH w2) as [Hop2 Hcl2].
        destruct (poll_loop fuel ser w2) as [[r w3] t3].
        cbn [snd] in *.
        rewrite opened_ports_app, close_count_app, Hop, Hcl.
        cbn [opened_ports close_count app Nat.add].
        now rewrite Hop2, Hcl2.
      * cbn [snd]. rewrite opened_ports_app, close_count_app, Hop, Hcl.
        split; reflexivity.
  - cbn [poll_loop]. rewrite (bind_raise _ _ _ Eread). now split.
  - cbn [poll_loop]. rewrite (bind_out_of_fuel _ _ _ Eread). now split.
Qed.

(** The poll of [main] ends with the [close] of its port; before
    that it closes and opens nothing. *)
Lemma poll_trace_cases (fuel : nat) (ser : Ser) (w : W) :
  match poll fuel ser w with
  | (OutOfFuel, _, t) => close_count t = 0%nat /\ opened_ports t = []
  | (_, _, t) =>
      exists t0, t = (t0 ++ [EvClose ser])%list /\
                 close_count t0 = 0%nat /\ opened_ports t0 = []
  end.
Proof.
  destruct (poll_loop_quiet fuel ser w) as [Hop Hcl].
  unfold poll, try_finally, try_except, bind at 1, print at 1.
  destruct (poll_loop fuel ser w) as [[[[]|e|] w1] t]; cbn [snd] in Hop, Hcl.
  - unfold call. destruct (close ser w1) as [[[]|e2] w2]; cbn;
      exists (EvPrint
                "Scanning for a card... (will exit after successful read)"
              :: t);
      (split; [reflexivity|]); now split.
  - destruct (is_KeyboardInterrupt e); unfold print, call;
      destruct (close ser w1) as [[[]|e2] w2]; cbn.
    1, 2: exists (EvPrint
                "Scanning for a card... (will exit after successful read)"
              :: t ++ [EvPrint (LF ++ "Exiting.")])%list.
    3, 4: exists (EvPrint
                "Scanning for a card... (will exit after successful read)"
              :: t).
    all: (split; [reflexivity|]); cbn [opened_ports close_count];
      rewrite ?opened_ports_app, ?close_count_app, ?Hop, ?Hcl;
      now split.
  - now split.
Qed.

(** X6.  However a run of the poll of [main] ends (card read,
    Ctrl+C, or any other exception), the port is closed exactly
    once, and that [close] of the port polled is the last thing the
    poll does; as long as the loop runs nothing is closed.  The poll
    never opens a port. *)
Theorem poll_closes_port_once (fuel : nat) (ser : Ser) (w : W) :
  match fst (fst (poll fuel ser w)) with
  | OutOfFuel => close_count (snd (poll fuel ser w)) = 0%nat
  | _ =>
      close_count (snd (poll fuel ser w)) = 1%nat /\
      last (snd (poll fuel ser w)) (EvPrint "") = EvClose ser
  end /\
  opened_ports (snd (poll fuel ser w)) = [].
Proof.
  pose proof (poll_trace_cases fuel ser w) as H.
  destruct (poll fuel ser w) as [[[[]|e|] w1] t]; cbn [fst snd].
  1, 2: destruct H as (t0 & -> & Hcl & Hop);
    rewrite close_count_app, opened_ports_app, Hcl, Hop, last_last;
    repeat split.
  destruct H as [Hcl Hop]. now split.
Qed.

(** X7.  How the poll of [main] ends when its loop is left by an
    exception and [close] returns.  A [KeyboardInterrupt], wherever
    in the loop it was thrown, is answered by the line "Exiting.",
    the port is closed and the poll returns normally.  Any other
    exception leaves the poll after the port was closed. *)
Theorem poll_interrupted (fuel : nat) (ser : Ser) (w w1 w2 : W) e t :
  poll_loop fuel ser w = (Raise e, w1, t) ->
  close ser w1 = (Returns tt, w2) ->
  poll fuel ser w =
  (if is_KeyboardInterrupt e then Ok tt else Raise e,
   w2,
   (EvPrint "Scanning for a card... (will exit after successful read)"
    :: t ++
    (if is_KeyboardInterrupt e then [EvPrint (LF ++ "Exiting.")] else []) ++
    [EvClose ser])%list).
Proof.
  intros Eloop Eclose.
  unfold poll, try_finally, try_except, bind at 1, print at 1.
  rewrite Eloop.
  destruct (is_KeyboardInterrupt e); unfold print, call; rewrite Eclose; cbn;
    rewrite <- ?app_assoc; reflexivity.
Qed.

(** A string of a non-empty UID is not empty. *)
Lemma uid_hex_truthy (b : byte) (rest : bytes) :
  truthy (Some (uid_hex (b :: rest))) = true.
Proof.
  pose proof (uid_hex_length_cons b rest) as Hlen.
  destruct (uid_hex (b :: rest)); [cbn in Hlen; lia | reflexivity].
Qed.

(** X8.  A response of 20 bytes or more whose UID length at offset
    12 is not 0 ends the loop in that round: the script prints the
    card type, the UID in hexadecimal and the line about the
    successful read, and makes no further call. *)
Theorem poll_loop_card_detected (fuel : nat) (ser : Ser) (w w1 : W)
    raw t (sak uid_length : byte) :
  request_target ser w = (Ok raw, w1, t) ->
  (20 <= List.length raw)%nat ->
  nth_error raw 11 = Some sak ->
  nth_error raw 12 = Some uid_length ->
  uid_length <> x00 ->
  poll_loop (S fuel) ser w =
  (Ok tt, w1,
   (t ++
    [EvPrint ("Card type: "
                ++ get_card_type (byte_to_Z sak) (byte_to_Z uid_length));
     EvPrint ("Card detected! UID: "
                ++ uid_hex (firstn (Z.to_nat (byte_to_Z uid_length))
                              (skipn 13 raw)));
     EvPrint "Successfully read card. Exiting."])%list).
Proof.
  intros Ereq Hlen Hsak Hn Hnz.
  pose proof (@parse_target_response_long W Ser raw w1 sak uid_length
                Hlen Hsak Hn) as Eparse.
  pose proof (read_rfid_uid_received _ _ Ereq Eparse) as Eread.
  rewrite (poll_loop_round_break fuel _ _ Eread).
  - now rewrite <- app_assoc.
  - assert (Hpos : 0 < byte_to_Z uid_length).
    { pose proof (byte_to_Z_range uid_length).
      destruct (Z.eq_dec (byte_to_Z uid_length) 0) as [Hz|]; [|lia].
      elim Hnz. apply byte_to_Z_inj. exact Hz. }
    destruct (skipn 13 raw) as [|b rest] eqn:Eskip.
    + pose proof (length_skipn 13 raw) as Hl. rewrite Eskip in Hl.
      cbn in Hl. lia.
    + destruct (Z.to_nat (byte_to_Z uid_length)) as [|k] eqn:Ek; [lia|].
      cbn [firstn]. apply uid_hex_truthy.
Qed.

End Polling.

Section EntryPoint.

Context {W Ser : Type} {host : Host W Ser}.

Local Abbreviation run A := (res A * W * list (event Ser))%type.

Lemma len_ge_2 {A} (a b : A) (rest : list A) :
  (len (a :: b :: rest) >=? 2) = true.
Proof. apply Z.geb_le. unfold len. cbn [List.length]. lia. Qed.

Lemma len_lt_2 {A} (l : list A) :
  (List.length l < 2)%nat -> (len l >=? 2) = false.
Proof.
  intros Hlt. destruct (len l >=? 2) eqn:E; [|reflexivity].
  apply Z.geb_le in E. unfold len in E. lia.
Qed.

Lemma py_getitem_second {A} (a b : A) (rest : list A) (w : W) :
  py_getitem (a :: b :: rest) 1 w = ((Ok b, w, []) : run A).
Proof. reflexivity. Qed.

(** [main] without a port on the command line starts with the
    scan. *)
Lemma main_without_port (argv : list string) (fuel : nat) (w : W) :
  (List.length argv < 2)%nat ->
  main argv fuel w =
  (ser <-
     (found <- find_pn532_port ;;
      match found with
      | Some ser => ret ser
      | None =>
          print (LF ++ "Could not find PN532 device. "
                   ++ "Please check connections and try again.") ;;
          print ("You can also specify the port directly: "
                   ++ "python pn532_scan.py COM5") ;;
          raise (SystemExit 1)
      end) ;;
   print ("Connected to PN532. Waiting for RFID tags..." ++ LF
            ++ "Press Ctrl+C to exit." ++ LF) ;;
   poll fuel ser) w.
Proof.
  intros Hlt. unfold main. rewrite (len_lt_2 _ Hlt).
  unfold bind at 1, ret at 1.
  match goal with
  | |- (match ?m w with _ => _ end) = _ => destruct (m w) as [[r w1] t]
  end.
  reflexivity.
Qed.

(** X9.  Without a port on the command line, when the scan confirms
    no device, [main] prints its two lines of advice and exits with
    status 1; it polls nothing and closes nothing of its own. *)
Theorem main_without_device (argv : list string) (fuel : nat)
    (w w1 : W) t :
  (List.length argv < 2)%nat ->
  find_pn532_port w = (Ok None, w1, t) ->
  main argv fuel w =
  ((Raise (SystemExit 1), w1,
    (t ++
     [EvPrint (LF ++ "Could not find PN532 device. "
                 ++ "Please check connections and try again.");
      EvPrint ("You can also specify the port directly: "
                 ++ "python pn532_scan.py COM5")])%list) : run unit).
Proof.
  intros Hlt Efind. rewrite (main_without_port _ fuel w Hlt).
  apply bind_raise. rewrite (bind_ok _ _ _ Efind). reflexivity.
Qed.

(** X10.  A port given on the command line that opens is polled as
    it is: [main] neither enumerates the ports nor probes the port
    for a PN532, and goes straight to the poll. *)
Theorem main_explicit_port (prog port : string) (rest : list string)
    (fuel : nat) (w w1 : W) (ser : Ser) :
  Serial port 115200 1 w = (Returns ser, w1) ->
  main (prog :: port :: rest) fuel w =
  (let '(r, w2, t) := poll fuel ser w1 in
   (r, w2,
    ([EvPrint ("Trying to connect to specified port " ++ port ++ "...");
      EvOpen port (Some ser);
      EvPrint ("Connected to " ++ port ++ ".");
      EvPrint ("Connected to PN532. Waiting for RFID tags..." ++ LF
                 ++ "Press Ctrl+C to exit." ++ LF)] ++ t)%list)).
Proof.
  intros Eopen. unfold main. rewrite len_ge_2. cbv iota.
  erewrite bind_ok.
  2: { rewrite (bind_ok _ _ _ (py_getitem_second prog port rest w)).
       unfold try_except, bind at 1, print at 1, bind at 1, call_open.
       rewrite Eopen. reflexivity. }
  unfold bind at 1, ret at 1.
  unfold bind at 1, print at 1.
  destruct (poll fuel ser w1) as [[r w2] t]. reflexivity.
Qed.

(** X11.  A port given on the command line that cannot be opened is
    reported in two lines, after which [main] goes on exactly as if
    no port had been given. *)
Theorem main_unopenable_port (prog port : string) (rest : list string)
    (fuel : nat) (w w1 : W) (e : exn) :
  Serial port 115200 1 w = (Throws e, w1) ->
  is_Exception e = true ->
  main (prog :: port :: rest) fuel w =
  (let '(r, w2, t) := main [prog] fuel w1 in
   (r, w2,
    ([EvPrint ("Trying to connect to specified port " ++ port ++ "...");
      EvOpen port None;
      EvPrint ("Error opening serial port " ++ port ++ ": " ++ exn_str e);
      EvPrint "Will try to auto-detect PN532 device..."] ++ t)%list)).
Proof.
  intros Eopen Hexc.
  rewrite (main_without_port [prog] fuel w1) by (cbn; lia).
  unfold main. rewrite len_ge_2. cbv iota.
  erewrite bind_ok.
  2: { rewrite (bind_ok _ _ _ (py_getitem_second prog port rest w)).
       unfold try_except, bind at 1, print at 1, bind at 1, call_open.
       rewrite Eopen, Hexc. reflexivity. }
  cbv iota.
  match goal with
  | |- context [bind ?m ?k w1] => destruct (bind m k w1) as [[r w2] t]
  end.
  reflexivity.
Qed.

Lemma bind_ok_inv {A B} (m : @M W Ser A) (k : A -> @M W Ser B)
    (w w' : W) (b : B) t :
  bind m k w = (Ok b, w', t) ->
  exists a w1 t1 t2,
    m w = (Ok a, w1, t1) /\ k a w1 = (Ok b, w', t2) /\
    t = (t1 ++ t2)%list.
Proof.
  unfold bind. destruct (m w) as [[[a|e|] w1] t1]; try discriminate.
  destruct (k a w1) as [[r w2] t2] eqn:Ek. intros H.
  injection H as -> -> <-.
  now exists a, w1, t1, t2.
Qed.

(** X12.  [main] returns normally (exit status 0) only at the end of
    a poll: its run ends with the line "Connected to PN532...", the
    poll, in which no port is opened and none is closed, and at last
    the [close] of the port that was polled. *)
Theorem main_returns_after_close (argv : list string) (fuel : nat)
    (w w' : W) t :
  main argv fuel w = (Ok tt, w', t) ->
  exists (ser : Ser) t0 tp,
    t = (t0 ++
         EvPrint ("Connected to PN532. Waiting for RFID tags..." ++ LF
                    ++ "Press Ctrl+C to exit." ++ LF)
         :: tp ++ [EvClose ser])%list /\
    close_count tp = 0%nat /\ opened_ports tp = [].
Proof.
  intros Emain. unfold main in Emain.
  apply bind_ok_inv in Emain.
  destruct Emain as (given & w1 & t1 & t2 & _ & Emain & ->).
  apply bind_ok_inv in Emain.
  destruct Emain as (ser & w2 & t3 & t4 & _ & Emain & ->).
  apply bind_ok_inv in Emain.
  destruct Emain as ([] & w3 & t5 & t6 & Eprint & Epoll & ->).
  unfold print in Eprint. injection Eprint as <- <-.
  pose proof (poll_trace_cases fuel ser w2) as Hpoll.
  rewrite Epoll in Hpoll. destruct Hpoll as (tp & -> & Hcl & Hop).
  exists ser, (t1 ++ t3)%list, tp.
  split; [now rewrite <- !app_assoc|]. now split.
Qed.

End EntryPoint.

(** ** More runs on the scripted host *)

Section MoreRuns.

Import Sim.

Local Abbreviation run A := (res A * world * list (event nat))%type.

(** A scan of three ports that stops at the second one. *)
Lemma find_pn532_port_in_order_witness :
  comports second_port_world
  = (Returns [COM 1; COM 2; COM 3], second_port_listed) /\
  fst (fst (find_pn532_port second_port_world)) = Ok (Some 1%nat) /\
  exists k, (1 <= k <= 3)%nat /\
    opened_ports (snd (find_pn532_port second_port_world))
    = firstn k ["COM1"; "COM2"; "COM3"].
Proof.
  split; [reflexivity|]. split; [reflexivity|].
  pose proof (@find_pn532_port_in_order world nat host second_port_world
                second_port_listed [COM 1; COM 2; COM 3] eq_refl) as H.
  destruct (find_pn532_port second_port_world) as [[r w'] t] eqn:E.
  assert (Hr : r = Ok (Some 1%nat))
    by (apply (f_equal (fun x => fst (fst x))) in E; cbn in E;
        now rewrite <- E).
  subst r. exact H.
Defined.

Lemma find_pn532_port_returns_answering_port_witness :
  fst (fst (find_pn532_port second_port_world)) = Ok (Some 1%nat) /\
  exists t0 port fwline,
    snd (find_pn532_port second_port_world)
    = (t0 ++
       EvOpen port (Some 1%nat) ::
       [EvReset 1%nat; EvWrite 1%nat wake_cmd; EvSleep 100;
        EvWrite 1%nat firmware_cmd; EvSleep 100; EvRead 1%nat 20] ++
       [EvPrint ("PN532 found on " ++ port ++ "!"); EvPrint fwline])%list.
Proof.
  split; [reflexivity|].
  destruct (find_pn532_port second_port_world) as [[r w'] t] eqn:E.
  assert (Hr : r = Ok (Some 1%nat))
    by (apply (f_equal (fun x => fst (fst x))) in E; cbn in E;
        now rewrite <- E).
  subst r.
  exact (@find_pn532_port_returns_answering_port world nat host
           second_port_world w' 1%nat t E).
Defined.

(** Ctrl+C during the sleep between two rounds. *)
Lemma poll_interrupted_witness :
  poll_loop 2 0%nat interrupted_world
  = (Raise KeyboardInterrupt, quiet,
     [EvReset 0%nat; EvWrite 0%nat READ_UID_COMMAND; EvSleep 300;
      EvRead 0%nat 64; EvSleep 500]) /\
  close 0%nat quiet = (Returns tt, quiet) /\
  poll 2 0%nat interrupted_world
  = (Ok tt, quiet,
     [EvPrint "Scanning for a card... (will exit after successful read)";
      EvReset 0%nat; EvWrite 0%nat READ_UID_COMMAND; EvSleep 300;
      EvRead 0%nat 64; EvSleep 500;
      EvPrint (LF ++ "Exiting."); EvClose 0%nat]).
Proof.
  split; [reflexivity|]. split; [reflexivity|].
  exact (@poll_interrupted world nat host 2 0%nat interrupted_world quiet
           quiet KeyboardInterrupt
           [EvReset 0%nat; EvWrite 0%nat READ_UID_COMMAND; EvSleep 300;
            EvRead 0%nat 64; EvSleep 500]
           eq_refl eq_refl).
Defined.

(** A MIFARE Classic 1K card on the reader. *)
Lemma poll_loop_card_detected_witness :
  request_target 0%nat card_world
  = (Ok card_frame, card_world,
     [EvReset 0%nat; EvWrite 0%nat READ_UID_COMMAND; EvSleep 300;
      EvRead 0%nat 64]) /\
  (20 <= List.length card_frame)%nat /\
  nth_error card_frame 11 = Some x08 /\
  nth_error card_frame 12 = Some x04 /\
  x04 <> x00 /\
  poll_loop 1 0%nat card_world
  = (Ok tt, card_world,
     [EvReset 0%nat; EvWrite 0%nat READ_UID_COMMAND; EvSleep 300;
      EvRead 0%nat 64;
      EvPrint "Card type: MIFARE Classic 1K";
      EvPrint "Card detected! UID: DE AD BE EF";
      EvPrint "Successfully read card. Exiting."]).
Proof.
  assert (Hlen : (20 <= List.length card_frame)%nat) by (vm_compute; lia).
  assert (Hnz : x04 <> x00) by discriminate.
  split; [reflexivity|]. split; [exact Hlen|]. split; [reflexivity|].
  split; [reflexivity|]. split; [exact Hnz|].
  exact (@poll_loop_card_detected world nat host 0 0%nat card_world
           card_world card_frame
           [EvReset 0%nat; EvWrite 0%nat READ_UID_COMMAND; EvSleep 300;
            EvRead 0%nat 64]
           x08 x04 eq_refl Hlen eq_refl eq_refl Hnz).
Defined.

(** No port on the command line and no serial port on the host. *)
Lemma main_without_device_witness :
  (List.length ["pn532_scan.py"] < 2)%nat /\
  find_pn532_port quiet
  = ((Ok None, quiet,
      [EvPrint "Scanning for available serial ports..."; EvComports;
       EvPrint "No serial ports found."]) : run (option nat)) /\
  main ["pn532_scan.py"] 3 quiet
  = ((Raise (SystemExit 1), quiet,
      [EvPrint "Scanning for available serial ports..."; EvComports;
       EvPrint "No serial ports found.";
       EvPrint (LF ++ "Could not find PN532 device. "
                  ++ "Please check connections and try again.");
       EvPrint ("You can also specify the port directly: "
                  ++ "python pn532_scan.py COM5")]) : run unit).
Proof.
  assert (Hlt : (List.length ["pn532_scan.py"] < 2)%nat)
    by (vm_compute; lia).
  split; [exact Hlt|]. split; [reflexivity|].
  exact (@main_without_device world nat host ["pn532_scan.py"] 3 quiet quiet
           [EvPrint "Scanning for available serial ports..."; EvComports;
            EvPrint "No serial ports found."]
           Hlt eq_refl).
Defined.

(** A port given on the command line, with a card on the reader. *)
Lemma main_explicit_port_witness :
  Serial "COM7" 115200 1 card_world = (Returns 0%nat, card_opened) /\
  main ["pn532_scan.py"; "COM7"] 1 card_world
  = (Ok tt, card_opened,
     [EvPrint "Trying to connect to specified port COM7...";
      EvOpen "COM7" (Some 0%nat);
      EvPrint "Connected to COM7.";
      EvPrint ("Connected to PN532. Waiting for RFID tags..." ++ LF
                 ++ "Press Ctrl+C to exit." ++ LF);
      EvPrint "Scanning for a card... (will exit after successful read)";
      EvReset 0%nat; EvWrite 0%nat READ_UID_COMMAND; EvSleep 300;
      EvRead 0%nat 64;
      EvPrint "Card type: MIFARE Classic 1K";
      EvPrint "Card detected! UID: DE AD BE EF";
      EvPrint "Successfully read card. Exiting.";
      EvClose 0%nat]).
Proof.
  split; [reflexivity|].
  exact (@main_explicit_port world nat host "pn532_scan.py" "COM7" [] 1
           card_world card_opened 0%nat eq_refl).
Defined.

(** A port given on the command line that cannot be opened, on a
    host without serial ports. *)
Lemma main_unopenable_port_witness :
  Serial "COM7" 115200 1 unopenable_world
  = (Throws (SerialException "could not open port"), quiet) /\
  is_Exception (SerialException "could not open port") = true /\
  main ["pn532_scan.py"; "COM7"] 1 unopenable_world
  = (Raise (SystemExit 1), quiet,
     [EvPrint "Trying to connect to specified port COM7...";
      EvOpen "COM7" None;
      EvPrint "Error opening serial port COM7: could not open port";
      EvPrint "Will try to auto-detect PN532 device...";
      EvPrint "Scanning for available serial ports..."; EvComports;
      EvPrint "No serial ports found.";
      EvPrint (LF ++ "Could not find PN532 device. "
                 ++ "Please check connections and try again.");
      EvPrint ("You can also specify the port directly: "
                 ++ "python pn532_scan.py COM5")]).
Proof.
  split; [reflexivity|]. split; [reflexivity|].
  exact (@main_unopenable_port world nat host "pn532_scan.py" "COM7" [] 1
           unopenable_world quiet
           (SerialException "could not open port") eq_refl eq_refl).
Defined.

(** The run of [main_explicit_port_witness] ends with the [close]. *)
Lemma main_returns_after_close_witness :
  fst (fst (main ["pn532_scan.py"; "COM7"] 1 card_world)) = Ok tt /\
  exists (ser : nat) t0 tp,
    snd (main ["pn532_scan.py"; "COM7"] 1 card_world)
    = (t0 ++
       EvPrint ("Connected to PN532. Waiting for RFID tags..." ++ LF
                  ++ "Press Ctrl+C to exit." ++ LF)
       :: tp ++ [EvClose ser])%list /\
    close_count tp = 0%nat /\ opened_ports tp = [].
Proof.
  split; [reflexivity|].
  destruct (main ["pn532_scan.py"; "COM7"] 1 card_world)
    as [[r w'] t] eqn:E.
  assert (Hr : r = Ok tt)
    by (apply (f_equal (fun x => fst (fst x))) in E; cbn in E;
        now rewrite <- E).
  subst r.
  exact (@main_returns_after_close world nat host
           ["pn532_scan.py"; "COM7"] 1 card_world w' t E).
Defined.

End MoreRuns.
